(** * AchoDaka Bank: the account ledger core

    A shallow embedding of the classes of
    [TempaGyeltshen_02240134_A3_PA.py] ([Account], [Personal], [Business],
    [BankCore] and the handlers of [BankApp]) and the properties the
    specification states about them.

    Modelling conventions.
    - Amounts and balances are Python numbers.  The application works on
      floats (a balance is [0.0] or [float(bal)], an amount is
      [float(value)]): IEEE binary64, embedded as the primitive [float] with
      its own addition, subtraction and comparisons.  The unit tests of
      [TempaGyeltshen_02240134_A3_PB.py] work on Python's unbounded [int],
      embedded as [Z].  The methods are written once, over the operations
      the source applies to a number; a store holds numbers of one kind.
    - A Python [str] is embedded as a [string]; a character stands for the
      code point of the same number.
    - [Account] objects are mutable and may be aliased ([transfer] gets a
      second account), so the account methods run in a state-and-exception
      monad over a store of objects.  A raised exception keeps the store as
      it was at the [raise], as in Python.
    - [BankCore.users] is a Python [dict]: an association list in insertion
      order with unique keys. *)

From Stdlib Require Import ZArith String Ascii List Bool Lia DecimalString.
From Stdlib Require Import PrimFloat FloatOps SpecFloat.
Import ListNotations.

#[local] Open Scope string_scope.
#[local] Open Scope Z_scope.
#[local] Set Warnings "-inexact-float".

(** ** Exceptions *)

Inductive exn : Type :=
| InputError (msg : string)
| FundTransferError (msg : string)
| ValueError (msg : string).

(** The error kinds of the specification, as the code raises them. *)
Definition InvalidAmount : exn := InputError "Amount must be more than zero.".
Definition InsufficientFunds : exn := InputError "Not enough balance.".
Definition InsufficientFundsTopUp : exn := InputError "Not enough balance for top-up.".
Definition TransferFailed : exn := FundTransferError "Not enough funds to send.".
Definition InvalidPhoneNumber : exn := InputError "Phone number must be 10 digits.".
Definition AuthenticationFailed : exn := InputError "Incorrect login details.".
Definition AccountNotFound : exn := InputError "Account not found.".

(** ** Python string built-ins used by the core *)

Module PyStr.

(** [str.isdigit] on one character, for code points below 256: the ASCII
    digits and the superscript digits U+00B2, U+00B3 and U+00B9. *)
Definition char_isdigit (c : ascii) : bool :=
  let n := nat_of_ascii c in
  (((48 <=? n) && (n <=? 57)) || (n =? 178) || (n =? 179) || (n =? 185))%nat.

(** [str.isspace] on one character, for code points below 256. *)
Definition char_isspace (c : ascii) : bool :=
  let n := nat_of_ascii c in
  (((9 <=? n) && (n <=? 13)) || ((28 <=? n) && (n <=? 32))
   || (n =? 133) || (n =? 160))%nat.

Fixpoint all (p : ascii -> bool) (s : string) : bool :=
  match s with
  | EmptyString => true
  | String c s' => p c && all p s'
  end.

(** [s.isdigit()]: every character is a digit and there is at least one. *)
Definition isdigit (s : string) : bool :=
  match s with
  | EmptyString => false
  | _ => all char_isdigit s
  end.

(** [len(s)]. *)
Definition len (s : string) : Z := Z.of_nat (String.length s).

Fixpoint lstrip (s : string) : string :=
  match s with
  | EmptyString => EmptyString
  | String c s' => if char_isspace c then lstrip s' else s
  end.

Fixpoint rstrip (s : string) : string :=
  match s with
  | EmptyString => EmptyString
  | String c s' =>
      match rstrip s' with
      | EmptyString => if char_isspace c then EmptyString else String c EmptyString
      | r => String c r
      end
  end.

(** [s.strip()]. *)
Definition strip (s : string) : string := rstrip (lstrip s).

(** [s.split(sep)] for a one-character separator: never the empty list. *)
Fixpoint split (sep : ascii) (s : string) : list string :=
  match s with
  | EmptyString => [EmptyString]
  | String c s' =>
      if Ascii.eqb c sep then EmptyString :: split sep s'
      else match split sep s' with
           | [] => [String c EmptyString]
           | f :: fs => String c f :: fs
           end
  end.

(** Iterating over a text file: the lines, each with its newline kept.  The
    text is the one the program sees, line ends already translated to the
    newline character. *)
Fixpoint lines (s : string) : list string :=
  match s with
  | EmptyString => []
  | String c s' =>
      if Ascii.eqb c "010"%char then String c EmptyString :: lines s'
      else match lines s' with
           | [] => [String c EmptyString]
           | l :: ls => String c l :: ls
           end
  end.

End PyStr.

(** ** Numbers

    What the source does with a number: [0] and [0.0], [+=], [-=], [>],
    [<=] and the truth value of [if amt:]. *)

Class Number (N : Type) : Type := {
  py_zero : N;
  py_add : N -> N -> N;
  py_sub : N -> N -> N;
  py_gt : N -> N -> bool;
  py_le : N -> N -> bool;
  py_bool : N -> bool
}.

(** Python's [int]. *)
#[export] Instance Number_int : Number Z := {|
  py_zero := 0;
  py_add := Z.add;
  py_sub := Z.sub;
  py_gt := Z.gtb;
  py_le := Z.leb;
  py_bool := fun a => negb (a =? 0)
|}.

(** Python's [float]: every comparison with [nan] is false, and [nan] is
    true as a condition. *)
#[export] Instance Number_float : Number float := {|
  py_zero := PrimFloat.zero;
  py_add := PrimFloat.add;
  py_sub := PrimFloat.sub;
  py_gt := fun a b => PrimFloat.ltb b a;
  py_le := PrimFloat.leb;
  py_bool := fun a => negb (PrimFloat.eqb a PrimFloat.zero)
|}.

(** ** Accounts *)

Record Account (N : Type) : Type := mkAccount {
  num : string;
  pin : string;
  type : string;
  balance : N
}.

Arguments mkAccount {N} num pin type balance.
Arguments num {N} a.
Arguments pin {N} a.
Arguments type {N} a.
Arguments balance {N} a.

(** The subclasses only fix the [type] tag. *)
Definition Personal {N : Type} (number pin : string) (balance : N) : Account N :=
  mkAccount number pin "personal" balance.

Definition Business {N : Type} (number pin : string) (balance : N) : Account N :=
  mkAccount number pin "business" balance.

Definition with_balance {N : Type} (a : Account N) (b : N) : Account N :=
  mkAccount (num a) (pin a) (type a) b.

(** ** The object store and the monad of the methods *)

Definition ref : Type := nat.

(** Every reference a Python program holds is live: the store is total. *)
Definition Heap (N : Type) : Type := ref -> Account N.

Definition M (N A : Type) : Type := Heap N -> Heap N * (exn + A).

Definition ret {N A : Type} (a : A) : M N A := fun h => (h, inr a).

Definition raise {N A : Type} (e : exn) : M N A := fun h => (h, inl e).

Definition bind {N A B : Type} (c : M N A) (k : A -> M N B) : M N B :=
  fun h =>
    match c h with
    | (h', inr a) => k a h'
    | (h', inl e) => (h', inl e)
    end.

Notation "x <- c ;; k" := (bind c (fun x => k))
  (at level 100, c at next level, right associativity).
Notation "c ;;; k" := (bind c (fun _ => k))
  (at level 100, right associativity).

(** [self.balance] *)
Definition get_balance {N : Type} (self : ref) : M N N :=
  fun h => (h, inr (balance (h self))).

(** The store in which the object [self] has balance [v]. *)
Definition upd_balance {N : Type} (h : Heap N) (self : ref) (v : N) : Heap N :=
  fun r => if Nat.eqb r self then with_balance (h r) v else h r.

(** [self.balance = v] *)
Definition set_balance {N : Type} (self : ref) (v : N) : M N unit :=
  fun h => (upd_balance h self v, inr tt).

(** Running a method: the store it leaves and its outcome. *)
Definition store_after {N A : Type} (c : M N A) (h : Heap N) : Heap N := fst (c h).
Definition outcome {N A : Type} (c : M N A) (h : Heap N) : exn + A := snd (c h).
Definition raises {N A : Type} (c : M N A) (h : Heap N) (e : exn) : Prop :=
  outcome c h = inl e.
Definition succeeds {N A : Type} (c : M N A) (h : Heap N) : Prop :=
  exists a, outcome c h = inr a.
Definition fails {N A : Type} (c : M N A) (h : Heap N) : Prop :=
  exists e, outcome c h = inl e.

(** ** The methods of [Account] *)

Section Methods.

Context {N : Type} {number_ops : Number N}.

Definition deposit (self : ref) (amount : N) : M N unit :=
  if py_le amount py_zero then raise InvalidAmount
  else b <- get_balance self ;; set_balance self (py_add b amount).

Definition withdraw (self : ref) (amount : N) : M N unit :=
  b <- get_balance self ;;
  if py_gt amount b then raise InsufficientFunds
  else b' <- get_balance self ;; set_balance self (py_sub b' amount).

Definition transfer (self : ref) (amount : N) (receiver : ref) : M N unit :=
  b <- get_balance self ;;
  if py_gt amount b then raise TransferFailed
  else withdraw self amount ;;; deposit receiver amount.

Definition recharge (self : ref) (number : string) (amount : N) : M N unit :=
  if negb (PyStr.isdigit number) || negb (PyStr.len number =? 10)
  then raise InvalidPhoneNumber
  else
    b <- get_balance self ;;
    if py_gt amount b then raise InsufficientFundsTopUp
    else b' <- get_balance self ;; set_balance self (py_sub b' amount).

End Methods.

(** "Exactly 10 characters, all digits", in the words of the specification. *)
Definition ten_digits (number : string) : bool :=
  (String.length number =? 10)%nat && PyStr.all PyStr.char_isdigit number.

(** The same, with the digits written out.  The decimal digits, and the
    other characters below code point 256 that Python counts as digits: the
    superscripts two, three and one. *)
Definition decimal_digits : string := "0123456789".

Definition superscript_digits : string :=
  String "178" (String "179" (String "185" EmptyString)).

Definition python_digits : string := decimal_digits ++ superscript_digits.

Fixpoint occurs (c : ascii) (s : string) : bool :=
  match s with
  | EmptyString => false
  | String c' s' => Ascii.eqb c c' || occurs c s'
  end.

(** Exactly ten characters, each one of [allowed]. *)
Definition ten_of (allowed number : string) : bool :=
  (String.length number =? 10)%nat && PyStr.all (fun c => occurs c allowed) number.

(** ** Sessions: sequences of calls

    The presentation layer catches every exception of a call and goes on
    with the next one, on the store the failed call left. *)

Inductive call (N : Type) : Type :=
| Deposit (self : ref) (amount : N)
| Withdraw (self : ref) (amount : N)
| Transfer (self : ref) (amount : N) (receiver : ref)
| Recharge (self : ref) (number : string) (amount : N).

Arguments Deposit {N} self amount.
Arguments Withdraw {N} self amount.
Arguments Transfer {N} self amount receiver.
Arguments Recharge {N} self number amount.

Definition perform {N : Type} {number_ops : Number N} (c : call N) : M N unit :=
  match c with
  | Deposit self amount => deposit self amount
  | Withdraw self amount => withdraw self amount
  | Transfer self amount receiver => transfer self amount receiver
  | Recharge self number amount => recharge self number amount
  end.

Definition run {N : Type} {number_ops : Number N} (cs : list (call N)) (h : Heap N)
    : Heap N :=
  fold_left (fun h' c => store_after (perform c) h') cs h.

(** The objects a call is made on or is handed. *)
Definition parties {N : Type} (c : call N) : list ref :=
  match c with
  | Deposit self _ => [self]
  | Withdraw self _ => [self]
  | Transfer self _ receiver => [self; receiver]
  | Recharge self _ _ => [self]
  end.

(** ** Python dictionaries with string keys *)

Definition dict (N : Type) : Type := list (string * Account N).

(** [d.get(k)] *)
Fixpoint dict_get {N : Type} (d : dict N) (k : string) : option (Account N) :=
  match d with
  | [] => None
  | (k', v) :: d' => if String.eqb k' k then Some v else dict_get d' k
  end.

(** [d[k] = v]: an existing key keeps its place, a new one goes last. *)
Fixpoint dict_set {N : Type} (d : dict N) (k : string) (v : Account N) : dict N :=
  match d with
  | [] => [(k, v)]
  | (k', v') :: d' =>
      if String.eqb k' k then (k', v) :: d' else (k', v') :: dict_set d' k v
  end.

(** [k in d] *)
Definition dict_mem {N : Type} (d : dict N) (k : string) : bool :=
  match dict_get d k with Some _ => true | None => false end.

(** [del d[k]] *)
Fixpoint dict_del {N : Type} (d : dict N) (k : string) : dict N :=
  match d with
  | [] => []
  | (k', v) :: d' => if String.eqb k' k then d' else (k', v) :: dict_del d' k
  end.

(** [d.keys()] and [d.values()] *)
Definition dict_keys {N : Type} (d : dict N) : list string := map fst d.
Definition dict_values {N : Type} (d : dict N) : list (Account N) := map snd d.

(** ** The ledger: [BankCore] *)

Definition comma : ascii := ","%char.
Definition newline : string := String "010"%char EmptyString.

(** The file [data.txt]: absent, or its text. *)
Definition file : Type := option string.

(** [str] of an [int]. *)
Definition int_str (z : Z) : string := NilZero.string_of_int (Z.to_int z).

Section BankCore.

Context {N : Type} {number_ops : Number N}.

(** Python's conversions between numbers and text are built-ins, not code
    of the repository: [float(s)], [None] when it raises [ValueError], and
    the formatting of a balance inside an f-string. *)
Variable py_float : string -> option N.
Variable py_str : N -> string.

(** The body of the loop of [_load_data].  A line that does not unpack
    into four fields, or whose balance does not parse, raises
    [ValueError]. *)
Definition load_record (users : dict N) (line : string) : exn + dict N :=
  match PyStr.split comma (PyStr.strip line) with
  | [acc; pwd; typ; bal] =>
      let cls := if String.eqb typ "personal" then Personal else Business in
      match py_float bal with
      | Some b => inr (dict_set users acc (cls acc pwd b))
      | None => inl (ValueError "could not convert string to float")
      end
  | _ => inl (ValueError "wrong number of values to unpack")
  end.

Fixpoint load_lines (users : dict N) (ls : list string) : exn + dict N :=
  match ls with
  | [] => inr users
  | line :: ls' =>
      match load_record users line with
      | inr users' => load_lines users' ls'
      | inl e => inl e
      end
  end.

Definition _load_data (f : file) (users : dict N) : exn + dict N :=
  match f with
  | None => inr users
  | Some text => load_lines users (PyStr.lines text)
  end.

(** One record of the store. *)
Definition record_line (a : Account N) : string :=
  num a ++ "," ++ pin a ++ "," ++ type a ++ "," ++ py_str (balance a) ++ newline.

Definition _save_data (users : dict N) : file :=
  Some (String.concat "" (map record_line (dict_values users))).

(** [BankCore()]: an empty table, then [_load_data]. *)
Definition BankCore (f : file) : exn + dict N := _load_data f [].

(** [new_account] draws the number and the pin with [random.randint]; the two
    draws are arguments here.  The account starts with a balance of zero.
    The table [new_account] leaves, the file it writes and the credentials it
    returns. *)
Definition new_account (users : dict N) (kind : string) (rand_num rand_pin : Z)
    : dict N * file * (string * string) :=
  let acc_num := int_str rand_num in
  let pin0 := int_str rand_pin in
  let user := if String.eqb kind "personal" then Personal acc_num pin0 py_zero
              else Business acc_num pin0 py_zero in
  let users' := dict_set users acc_num user in
  (users', _save_data users', (acc_num, pin0)).

End BankCore.

Definition authenticate {N : Type} (users : dict N) (acc_num pin0 : string)
    : exn + Account N :=
  match dict_get users acc_num with
  | Some acc => if String.eqb (pin acc) pin0 then inr acc else inl AuthenticationFailed
  | None => inl AuthenticationFailed
  end.

(** [remove_account] without the save that follows the deletion. *)
Definition remove_account {N : Type} (users : dict N) (acc_num : string)
    : exn + dict N :=
  if dict_mem users acc_num then inr (dict_del users acc_num)
  else inl AccountNotFound.

(** ** Valid records

    A table built purely from valid records: every account is stored under
    its own number, numbers and pins are strings of digits, the kind is one
    of the two tokens, and the text of the balance parses back to the balance
    and holds no white space and no comma (Python writes a number without
    either). *)

Definition no_space (c : ascii) : bool := negb (PyStr.char_isspace c).
Definition no_comma (c : ascii) : bool := negb (Ascii.eqb c comma).
Definition no_newline (c : ascii) : bool := negb (Ascii.eqb c "010").


Definition field_char (c : ascii) : bool := no_space c && no_comma c.

Definition valid_record {N : Type} (py_float : string -> option N)
    (py_str : N -> string) (entry : string * Account N) : Prop :=
  let (k, a) := entry in
  k = num a
  /\ PyStr.all PyStr.char_isdigit (num a) = true
  /\ PyStr.all PyStr.char_isdigit (pin a) = true
  /\ (type a = "personal" \/ type a = "business")
  /\ py_float (py_str (balance a)) = Some (balance a)
  /\ PyStr.all field_char (py_str (balance a)) = true.

Definition valid_table {N : Type} (py_float : string -> option N)
    (py_str : N -> string) (users : dict N) : Prop :=
  NoDup (dict_keys users) /\ Forall (valid_record py_float py_str) users.

(** ** The built-ins on floats *)

Module PyFloat.

(** [float(s)] and the text of a float ([repr], which is also what an
    f-string writes), for strings of code points below 256: the decimal to
    binary conversion rounds to the nearest float, ties to even, and [repr]
    gives the shortest digits that read back as the same float. *)

(** The float nearest to [p / q], ties to even, with the sign [neg]. *)
Definition of_ratio (neg : bool) (p q : positive) : float :=
  SF2Prim (SFdiv prec emax (S754_finite neg p 0) (S754_finite false q 0)).

Definition digit_value (c : ascii) : option Z :=
  let n := Z.of_nat (nat_of_ascii c) in
  if (48 <=? n) && (n <=? 57) then Some (n - 48) else None.

Definition is_digit (c : ascii) : bool :=
  match digit_value c with Some _ => true | None => false end.

(** The value of a string of decimal digits, [None] if another character occurs. *)
Fixpoint digits_from (acc : Z) (s : string) : option Z :=
  match s with
  | EmptyString => Some acc
  | String c s' =>
      match digit_value c with
      | Some d => digits_from (10 * acc + d) s'
      | None => None
      end
  end.

(** Underscores are accepted between two digits only, and dropped. *)
Fixpoint drop_underscores (after_digit : bool) (s : string) : option string :=
  match s with
  | EmptyString => Some EmptyString
  | String c s' =>
      if Ascii.eqb c "_"
      then match s' with
           | String c' _ =>
               if after_digit && is_digit c' then drop_underscores false s' else None
           | EmptyString => None
           end
      else option_map (String c) (drop_underscores (is_digit c) s')
  end.

Definition lower (c : ascii) : ascii :=
  let n := nat_of_ascii c in
  if ((65 <=? n) && (n <=? 90))%nat then ascii_of_nat (n + 32) else c.

Fixpoint lowercase (s : string) : string :=
  match s with
  | EmptyString => EmptyString
  | String c s' => String (lower c) (lowercase s')
  end.

(** [s] up to the first character that satisfies [p], and what follows it. *)
Fixpoint cut (p : ascii -> bool) (s : string) : string * option string :=
  match s with
  | EmptyString => (EmptyString, None)
  | String c s' =>
      if p c then (EmptyString, Some s')
      else let (before, after) := cut p s' in (String c before, after)
  end.

Definition signed (s : string) : bool * string :=
  match s with
  | String "-" s' => (true, s')
  | String "+" s' => (false, s')
  | _ => (false, s)
  end.

(** An exponent: an optional sign and at least one digit. *)
Definition exponent (s : string) : option Z :=
  let (neg, ds) := signed s in
  match ds with
  | EmptyString => None
  | _ => option_map (fun x => if neg then - x else x) (digits_from 0 ds)
  end.

(** A decimal number without its sign: digits, an optional point, an optional exponent. *)
Definition decimal (neg : bool) (s : string) : option float :=
  let (mantissa, exp_text) := cut (fun c => Ascii.eqb (lower c) "e") s in
  let (int_part, frac_text) := cut (fun c => Ascii.eqb c ".") mantissa in
  let frac_part := match frac_text with Some t => t | None => EmptyString end in
  match (int_part ++ frac_part)%string with
  | EmptyString => None
  | all_digits =>
      match digits_from 0 all_digits,
            match exp_text with Some t => exponent t | None => Some 0 end with
      | Some n, Some x =>
          let e := x - Z.of_nat (String.length frac_part) in
          match n with
          | Z.pos p =>
              Some (if 0 <=? e then of_ratio neg (p * Z.to_pos (10 ^ e)) 1
                    else of_ratio neg p (Z.to_pos (10 ^ (- e))))
          | _ => Some (if neg then neg_zero else zero)
          end
      | _, _ => None
      end
  end.

(** [float(s)] for a string; [None] when Python raises [ValueError]. *)
Definition of_string (s : string) : option float :=
  match drop_underscores false (PyStr.strip s) with
  | None => None
  | Some t =>
      let (neg, body) := signed t in
      let word := lowercase body in
      if String.eqb word "inf" || String.eqb word "infinity"
      then Some (if neg then neg_infinity else infinity)
      else if String.eqb word "nan" then Some nan
      else decimal neg body
  end.

(** The exact value of a finite positive float as a fraction. *)
Definition fraction (m : positive) (e : Z) : positive * positive :=
  if 0 <=? e then (m * Z.to_pos (2 ^ e), 1)%positive
  else (m, Z.to_pos (2 ^ (- e))).

(** Is [p / q] below [10 ^ d]? *)
Definition below (p q d : Z) : bool :=
  if 0 <=? d then p <? q * 10 ^ d else p * 10 ^ (- d) <? q.

(** The least [d] with [p / q < 10 ^ d], searched from [d] on. *)
Fixpoint point_from (fuel : nat) (d : Z) (p q : Z) : Z :=
  match fuel with
  | O => d
  | S fuel' =>
      if below p q d
      then (if below p q (d - 1) then point_from fuel' (d - 1) p q else d)
      else point_from fuel' (d + 1) p q
  end.

Definition scaled (n : Z) (e : Z) : positive * positive :=
  if 0 <=? e then (Z.to_pos (n * 10 ^ e), 1%positive)
  else (Z.to_pos n, Z.to_pos (10 ^ (- e))).

(** Does the decimal [n * 10 ^ e] read back as [f]? *)
Definition reads_back (f : float) (n e : Z) : bool :=
  (0 <? n) && (let (p, q) := scaled n e in PrimFloat.eqb (of_ratio false p q) f).

(** The shortest digits that read back as the positive float [f = p / q],
    the closest to [f] when there are two: the digits as a number and the
    power of ten they are scaled by. *)
Fixpoint shortest (fuel : nat) (digits : Z) (f : float) (p q point : Z) : Z * Z :=
  let e := point - digits in
  let (num, den) := if 0 <=? e then (p, q * 10 ^ e) else (p * 10 ^ (- e), q) in
  let low := num / den in
  let high := low + 1 in
  let low_ok := reads_back f low e in
  let high_ok := reads_back f high e in
  let twice := 2 * (num - low * den) in
  let prefer_low := (twice <? den) || ((twice =? den) && Z.even low) in
  if low_ok && (negb high_ok || prefer_low) then (low, e)
  else if high_ok then (high, e)
  else match fuel with
       | O => (low, e)
       | S fuel' => shortest fuel' (digits + 1) f p q point
       end.

Fixpoint zeros (n : nat) : string :=
  match n with O => EmptyString | S n' => String "0" (zeros n') end.

Fixpoint trim_zeros (n e : Z) (fuel : nat) : Z * Z :=
  match fuel with
  | O => (n, e)
  | S fuel' => if (n mod 10 =? 0) && negb (n =? 0) then trim_zeros (n / 10) (e + 1) fuel' else (n, e)
  end.

(** The text of the digits [ds] with the decimal point after [point] of them. *)
Definition layout (ds : string) (point : Z) : string :=
  let len := Z.of_nat (String.length ds) in
  if (point <=? -4) || (16 <? point)
  then
    let x := point - 1 in
    let mant := match ds with
                | String c EmptyString => ds
                | String c rest => String c (String "." rest)
                | EmptyString => ds
                end in
    let xs := int_str (Z.abs x) in
    let xs := if Z.abs x <? 10 then String "0" xs else xs in
    let sign := if x <? 0 then "-" else "+" in
    (mant ++ "e" ++ sign ++ xs)%string
  else if point <=? 0
  then ("0." ++ zeros (Z.to_nat (- point)) ++ ds)%string
  else if len <=? point
  then (ds ++ zeros (Z.to_nat (point - len)) ++ ".0")%string
  else (substring 0 (Z.to_nat point) ds ++ "."
        ++ substring (Z.to_nat point) (Z.to_nat (len - point)) ds)%string.

(** [repr(f)], which is also what an f-string writes for a float. *)
Definition repr (f : float) : string :=
  match Prim2SF f with
  | S754_nan => "nan"
  | S754_infinity false => "inf"
  | S754_infinity true => "-inf"
  | S754_zero false => "0.0"
  | S754_zero true => "-0.0"
  | S754_finite neg m e =>
      let (p, q) := fraction m e in
      let point := point_from 800 0 (Z.pos p) (Z.pos q) in
      let (n, x) := shortest 17 1 (abs f) (Z.pos p) (Z.pos q) point in
      let (n, x) := trim_zeros n x 20 in
      let ds := int_str n in
      ((if neg then "-" else "") ++ layout ds (x + Z.of_nat (String.length ds)))%string
  end.

End PyFloat.

(** [s.count(c)] for one character. *)
Fixpoint count_char (c : ascii) (s : string) : nat :=
  match s with
  | EmptyString => O
  | String c' s' => if Ascii.eqb c' c then S (count_char c s') else count_char c s'
  end.

(** [p] on the [n] integers from [z] on. *)
Fixpoint all_from (p : Z -> bool) (z : Z) (n : nat) : bool :=
  match n with
  | O => true
  | S n' => p z && all_from p (z + 1) n'
  end.

(** [len] digits and nothing else. *)
Definition digits_of_length (len : nat) (s : string) : bool :=
  (String.length s =? len)%nat && PyStr.all PyStr.char_isdigit s.

(** A positive integer with [len] decimal digits. *)
Definition has_digits (len : nat) (z : Z) : bool :=
  match z with
  | Z.pos p => (Decimal.nb_digits (Pos.to_uint p) =? len)%nat
  | _ => false
  end.

(** ** The dashboard: the handlers of [BankApp]

    The handlers work on the logged-in account [self.user], on the table of
    the bank, whose values are the account objects themselves, and on the
    file.  What the user types into a prompt ([None] when the prompt is
    cancelled) and answers to a yes/no box are arguments of a handler. *)

Record World (N : Type) : Type := mkWorld {
  objects : Heap N;
  bank_users : list (string * ref);
  data_txt : file
}.

Arguments mkWorld {N} objects bank_users data_txt.
Arguments objects {N} w.
Arguments bank_users {N} w.
Arguments data_txt {N} w.

(** What a handler shows, and what escapes it.  The text of a [showinfo] box
    is left out. *)
Inductive event : Type :=
| showinfo (title : string)
| showerror (title : string) (message : option string)
| uncaught (e : exn)
| uncaught_AttributeError (attribute : string).

(** The table as [_save_data] sees it. *)
Definition table {N : Type} (w : World N) : dict N :=
  map (fun entry => (fst entry, objects w (snd entry))) (bank_users w).

(** [self.bank.users.get(k)] *)
Fixpoint users_get (us : list (string * ref)) (k : string) : option ref :=
  match us with
  | [] => None
  | (k', r) :: us' => if String.eqb k' k then Some r else users_get us' k
  end.

Definition with_objects {N : Type} (w : World N) (h : Heap N) : World N :=
  mkWorld h (bank_users w) (data_txt w).

Section BankApp.

Context {N : Type} {number_ops : Number N}.

Variable py_float : string -> option N.
Variable py_str : N -> string.

(** [self.bank._save_data()] *)
Definition save (w : World N) : World N :=
  mkWorld (objects w) (bank_users w) (_save_data py_str (table w)).

(** [_prompt_amount], from the answer to its prompt on: the amount it
    returns, if any, and the box it shows. *)
Definition _prompt_amount (value : option string) : option N * list event :=
  match value with
  | None => (None, [])
  | Some EmptyString => (None, [])
  | Some v =>
      match py_float v with
      | None => (None, [showerror "Please enter a valid amount." None])
      | Some amount =>
          if py_le amount py_zero
          then (None, [showerror "Please enter a valid amount." None])
          else (Some amount, [])
      end
  end.

(** [if amt:] *)
Definition truthy (amt : option N) : bool :=
  match amt with
  | Some a => py_bool a
  | None => false
  end.

(** The [try] block the three working handlers share: the method, then the
    save and the success box; an [InputError] is caught and shown. *)
Definition attempt (failed : string) (method : M N unit) (w : World N)
    : World N * list event :=
  match method (objects w) with
  | (h, inr _) => (save (with_objects w h), [showinfo "Success"])
  | (h, inl (InputError msg)) => (with_objects w h, [showerror failed (Some msg)])
  | (h, inl e) => (with_objects w h, [uncaught e])
  end.

Definition _deposit (user : ref) (value : option string) (w : World N)
    : World N * list event :=
  let (amt, shown) := _prompt_amount value in
  match amt with
  | Some a =>
      if truthy amt
      then let (w', shown') := attempt "Deposit Failed" (deposit user a) w in
           (w', shown ++ shown')%list
      else (w, shown)
  | None => (w, shown)
  end.

Definition _withdraw (user : ref) (value : option string) (w : World N)
    : World N * list event :=
  let (amt, shown) := _prompt_amount value in
  match amt with
  | Some a =>
      if truthy amt
      then let (w', shown') := attempt "Withdrawal Failed" (withdraw user a) w in
           (w', shown ++ shown')%list
      else (w, shown)
  | None => (w, shown)
  end.

Definition _recharge (user : ref) (number value : option string) (confirm : bool)
    (w : World N) : World N * list event :=
  match number with
  | None => (w, [])
  | Some EmptyString => (w, [])
  | Some n =>
      let (amt, shown) := _prompt_amount value in
      match amt with
      | Some a =>
          if truthy amt && confirm
          then let (w', shown') := attempt "Recharge Failed" (recharge user n a) w in
               (w', shown ++ shown')%list
          else (w, shown)
      | None => (w, shown)
      end
  end.

(** [_transfer] calls [self.user.send_money], a method no account class
    defines: once the receiver is found and the user has confirmed, an
    [AttributeError] is raised, which the [except] clause does not catch. *)
Definition _transfer (user : ref) (receiver value : option string) (confirm : bool)
    (w : World N) : World N * list event :=
  match receiver with
  | None => (w, [])
  | Some EmptyString => (w, [])
  | Some rcv =>
      if String.eqb rcv (num (objects w user))
      then (w, [showerror "Error" (Some "Cannot transfer to your own account")])
      else
        let (amt, shown) := _prompt_amount value in
        match amt with
        | Some a =>
            if truthy amt
            then match users_get (bank_users w) rcv with
                 | None =>
                     (w, shown ++ [showerror "Transfer Failed"
                                     (Some "Receiver account not found.")])%list
                 | Some target =>
                     if confirm
                     then (w, shown ++ [uncaught_AttributeError "send_money"])%list
                     else (w, shown)
                 end
            else (w, shown)
        | None => (w, shown)
        end
  end.

End BankApp.

(** ** Fixtures

    The accounts of the unit tests, on ints as the tests build them: [acc1]
    holds 1000, [acc2] holds 500. *)

Definition acc1 : ref := 0%nat.
Definition acc2 : ref := 1%nat.

Definition test_heap : Heap Z :=
  fun r => match r with
           | O => Personal "11111" "1111" 1000
           | _ => Business "22222" "2222" 500
           end.

Definition test_users : dict Z :=
  [("11111", test_heap acc1); ("22222", test_heap acc2)].

(** The same accounts on floats, as the application holds them. *)
Definition float_heap : Heap float :=
  fun r => match r with
           | O => Personal "11111" "1111" 1000%float
           | _ => Business "22222" "2222" 500%float
           end.

Definition float_users : dict float :=
  [("11111", float_heap acc1); ("22222", float_heap acc2)].

(** The float accounts in the bank, nothing saved yet. *)
Definition test_world : World float :=
  mkWorld float_heap [("11111", acc1); ("22222", acc2)] None.

(** Two accounts holding [a] and [b]. *)
Definition two_accounts {N : Type} (a b : N) : Heap N :=
  fun r => match r with
           | O => Personal "11111" "1111" a
           | _ => Business "22222" "2222" b
           end.

(** A store in which every account holds [b]. *)
Definition all_hold {N : Type} (b : N) : Heap N :=
  fun _ => Personal "33333" "3333" b.

(** A phone number of ten superscript twos. *)
Definition superscript_twos : string :=
  String "178" (String "178" (String "178" (String "178" (String "178"
 (String "178" (String "178" (String "178" (String "178" (String "178"
  EmptyString))))))))).

(** ** The unit tests of the repository *)

Example test_negative_deposit :
  outcome (deposit acc1 (-100)) test_heap = inl InvalidAmount.
Proof. reflexivity. Qed.

Example test_deposit :
  balance (store_after (deposit acc1 500) test_heap acc1) = 1500.
Proof. reflexivity. Qed.

Example test_withdraw_too_much :
  outcome (withdraw acc2 10000) test_heap = inl InsufficientFunds.
Proof. reflexivity. Qed.

Example test_withdraw :
  balance (store_after (withdraw acc2 300) test_heap acc2) = 200.
Proof. reflexivity. Qed.

Example test_transfer :
  let h := store_after (transfer acc1 200 acc2) test_heap in
  balance (h acc1) = 800 /\ balance (h acc2) = 700.
Proof. split; reflexivity. Qed.

Example test_transfer_too_much :
  outcome (transfer acc1 2000 acc2) test_heap = inl TransferFailed.
Proof. reflexivity. Qed.

Example test_short_number :
  outcome (recharge acc1 "123" 50) test_heap = inl InvalidPhoneNumber.
Proof. reflexivity. Qed.

Example test_invalid_recharge_number :
  outcome (recharge acc1 "abc123" 50) test_heap = inl InvalidPhoneNumber.
Proof. reflexivity. Qed.

Example test_recharge_over_balance :
  outcome (recharge acc2 "1234567890" 10000) test_heap = inl InsufficientFundsTopUp.
Proof. reflexivity. Qed.

Example test_valid_recharge :
  balance (store_after (recharge acc1 "1234567890" 100) test_heap acc1) = 900.
Proof. reflexivity. Qed.

Example test_remove_account :
  exists users, remove_account test_users "11111" = inr users
                /\ dict_mem users "11111" = false.
Proof. eexists; split; reflexivity. Qed.

Example test_login_success :
  authenticate test_users "22222" "2222" = inr (test_heap acc2).
Proof. reflexivity. Qed.

Example test_login_fail :
  authenticate test_users "22222" "0000" = inl AuthenticationFailed.
Proof. reflexivity. Qed.

(** The scenario of the specification, continued from [test_transfer]. *)
Example spec_scenario :
  let h := run [Transfer acc1 200 acc2; Withdraw acc2 10000;
                Recharge acc1 "1234567890" 100; Recharge acc1 "123" 50] test_heap in
  balance (h acc1) = 700 /\ balance (h acc2) = 700.
Proof. split; reflexivity. Qed.

(** The same scenario on floats. *)
Example spec_scenario_float :
  let h := run [Transfer acc1 200%float acc2; Withdraw acc2 10000%float;
                Recharge acc1 "1234567890" 100%float;
                Recharge acc1 "123" 50%float] float_heap in
  balance (h acc1) = 700%float /\ balance (h acc2) = 700%float.
Proof. split; reflexivity. Qed.

(** Python's texts for floats. *)
Example float_texts :
  map PyFloat.repr [1000%float; 0%float; 0.1%float; 1e16%float; 1e-5%float;
                    nan; infinity; (0.1 + 0.2)%float]
  = ["1000.0"; "0.0"; "0.1"; "1e+16"; "1e-05"; "nan"; "inf"; "0.30000000000000004"]
  /\ map PyFloat.of_string ["1000.0"; " 12.5 "; "1_000"; "1e3"; "-inf"; "12,5"; ""]
     = [Some 1000%float; Some 12.5%float; Some 1000%float; Some 1000%float;
        Some neg_infinity; None; None].
Proof. split; reflexivity. Qed.

(** ** The store *)

Section Store.

Context {N : Type}.

Lemma upd_balance_same (h : Heap N) (self : ref) (v : N) :
  balance (upd_balance h self v self) = v.
Proof. unfold upd_balance. now rewrite Nat.eqb_refl. Qed.

Lemma upd_balance_other (h : Heap N) (self r : ref) (v : N) :
  r <> self -> upd_balance h self v r = h r.
Proof.
  intros Hne. unfold upd_balance.
  now apply Nat.eqb_neq in Hne as ->.
Qed.

Lemma upd_balance_balance (h : Heap N) (self r : ref) (v : N) :
  balance (upd_balance h self v r) = if Nat.eqb r self then v else balance (h r).
Proof. unfold upd_balance. now destruct (Nat.eqb r self). Qed.

Lemma upd_balance_id (h : Heap N) (self r : ref) :
  upd_balance h self (balance (h self)) r = h r.
Proof.
  unfold upd_balance. destruct (Nat.eqb r self) eqn:E; [|reflexivity].
  apply Nat.eqb_eq in E as ->. now destruct (h self).
Qed.

Lemma upd_balance_twice (h : Heap N) (self r : ref) (v w : N) :
  upd_balance (upd_balance h self v) self w r = upd_balance h self w r.
Proof. unfold upd_balance. now destruct (Nat.eqb r self). Qed.

Lemma upd_balance_identity (h : Heap N) (self r : ref) (v : N) :
  num (upd_balance h self v r) = num (h r)
  /\ pin (upd_balance h self v r) = pin (h r)
  /\ type (upd_balance h self v r) = type (h r).
Proof. unfold upd_balance. now destruct (Nat.eqb r self). Qed.

End Store.

(** ** What each method computes *)

Ltac run_method :=
  unfold deposit, withdraw, transfer, recharge, bind, get_balance, set_balance,
    raise, ret; cbn beta iota.

(** The operations of Python's [int], written out. *)
Ltac int_ops :=
  cbn [py_zero py_add py_sub py_gt py_le py_bool Number_int] in *.

Section Runs.

Context {N : Type} {number_ops : Number N}.

Lemma deposit_run (self : ref) (amount : N) (h : Heap N) :
  deposit self amount h =
    if py_le amount py_zero then (h, inl InvalidAmount)
    else (upd_balance h self (py_add (balance (h self)) amount), inr tt).
Proof. run_method. now destruct (py_le amount py_zero). Qed.

Lemma withdraw_run (self : ref) (amount : N) (h : Heap N) :
  withdraw self amount h =
    if py_gt amount (balance (h self)) then (h, inl InsufficientFunds)
    else (upd_balance h self (py_sub (balance (h self)) amount), inr tt).
Proof. run_method. now destruct (py_gt amount (balance (h self))). Qed.

Lemma recharge_run (self : ref) (number : string) (amount : N) (h : Heap N) :
  recharge self number amount h =
    if negb (PyStr.isdigit number) || negb (PyStr.len number =? 10)
    then (h, inl InvalidPhoneNumber)
    else if py_gt amount (balance (h self)) then (h, inl InsufficientFundsTopUp)
    else (upd_balance h self (py_sub (balance (h self)) amount), inr tt).
Proof.
  run_method.
  destruct (negb (PyStr.isdigit number) || negb (PyStr.len number =? 10));
    [reflexivity|].
  now destruct (py_gt amount (balance (h self))).
Qed.

Lemma transfer_run (self : ref) (amount : N) (receiver : ref) (h : Heap N) :
  transfer self amount receiver h =
    if py_gt amount (balance (h self)) then (h, inl TransferFailed)
    else
      let h1 := upd_balance h self (py_sub (balance (h self)) amount) in
      if py_le amount py_zero then (h1, inl InvalidAmount)
      else (upd_balance h1 receiver (py_add (balance (h1 receiver)) amount), inr tt).
Proof.
  unfold transfer, bind at 1, get_balance at 1. cbn beta iota.
  destruct (py_gt amount (balance (h self))) eqn:E; [reflexivity|].
  unfold bind. rewrite withdraw_run, E, deposit_run.
  now destruct (py_le amount py_zero).
Qed.

(** A failed [deposit], [withdraw] or [recharge] has not touched the store,
    and neither has a [transfer] stopped by its own check. *)

Lemma deposit_fail_unchanged (self : ref) (amount : N) (h : Heap N) :
  fails (deposit self amount) h -> store_after (deposit self amount) h = h.
Proof.
  unfold fails, outcome, store_after. rewrite deposit_run.
  destruct (py_le amount py_zero); [reflexivity|]. now intros [e He].
Qed.

Lemma withdraw_fail_unchanged (self : ref) (amount : N) (h : Heap N) :
  fails (withdraw self amount) h -> store_after (withdraw self amount) h = h.
Proof.
  unfold fails, outcome, store_after. rewrite withdraw_run.
  destruct (py_gt amount (balance (h self))); [reflexivity|]. now intros [e He].
Qed.

Lemma recharge_fail_unchanged (self : ref) (number : string) (amount : N)
    (h : Heap N) :
  fails (recharge self number amount) h ->
  store_after (recharge self number amount) h = h.
Proof.
  unfold fails, outcome, store_after. rewrite recharge_run.
  destruct (negb (PyStr.isdigit number) || negb (PyStr.len number =? 10));
    [reflexivity|].
  destruct (py_gt amount (balance (h self))); [reflexivity|]. now intros [e He].
Qed.

Lemma transfer_fail_cases (self : ref) (amount : N) (receiver : ref) (h : Heap N) :
  fails (transfer self amount receiver) h ->
  (py_gt amount (balance (h self)) = true
   /\ outcome (transfer self amount receiver) h = inl TransferFailed
   /\ store_after (transfer self amount receiver) h = h)
  \/ (py_le amount py_zero = true /\ py_gt amount (balance (h self)) = false
      /\ outcome (transfer self amount receiver) h = inl InvalidAmount
      /\ store_after (transfer self amount receiver) h
         = upd_balance h self (py_sub (balance (h self)) amount)).
Proof.
  unfold fails, outcome, store_after. rewrite transfer_run.
  destruct (py_gt amount (balance (h self))) eqn:E; cbn.
  - intros _. left. now repeat split.
  - destruct (py_le amount py_zero) eqn:E0; cbn.
    + intros _. right. now repeat split.
    + now intros [e He].
Qed.

End Runs.

(** C1, at the input where the code departs from it.  [acc1] holds 1000 and
    [acc2] holds 500; [acc1.transfer(-50, acc2)] raises the [InputError] of
    the receiver's [deposit], after the [withdraw] of the sender has already
    been applied: the call fails and yet the sender's balance went from 1000
    to 1050. *)
Theorem transfer_negative_amount_not_atomic :
  outcome (transfer acc1 (-50) acc2) test_heap = inl InvalidAmount
  /\ balance (test_heap acc1) = 1000
  /\ balance (store_after (transfer acc1 (-50) acc2) test_heap acc1) = 1050
  /\ balance (store_after (transfer acc1 (-50) acc2) test_heap acc2) = 500.
Proof. repeat split. Qed.

(** The same call on floats. *)
Example transfer_negative_amount_float :
  outcome (transfer acc1 (-50)%float acc2) float_heap = inl InvalidAmount
  /\ balance (store_after (transfer acc1 (-50)%float acc2) float_heap acc1)
     = 1050%float.
Proof. split; reflexivity. Qed.

(** ** The balance invariant *)

Lemma perform_nonneg (c : call Z) (h : Heap Z) (r : ref) :
  0 <= balance (h r) -> 0 <= balance (store_after (perform c) h r).
Proof.
  intros Hr. unfold store_after.
  destruct c as [self amount | self amount | self amount receiver
                | self number amount]; cbn [perform].
  - rewrite deposit_run. int_ops.
    destruct (amount <=? 0) eqn:E; cbn [fst]; [exact Hr|].
    rewrite upd_balance_balance.
    destruct (Nat.eqb r self) eqn:Er; [|exact Hr].
    apply Nat.eqb_eq in Er as <-. lia.
  - rewrite withdraw_run. int_ops.
    destruct (amount >? balance (h self)) eqn:E; cbn [fst]; [exact Hr|].
    rewrite upd_balance_balance. destruct (Nat.eqb r self); [lia | exact Hr].
  - rewrite transfer_run. int_ops.
    destruct (amount >? balance (h self)) eqn:E; cbn [fst]; [exact Hr|].
    cbv zeta. destruct (amount <=? 0) eqn:E0; cbn [fst];
      rewrite !upd_balance_balance.
    + destruct (Nat.eqb r self); [lia | exact Hr].
    + destruct (Nat.eqb r receiver) eqn:Er, (Nat.eqb r self) eqn:Es;
        try apply Nat.eqb_eq in Er as <-; try rewrite Es; lia.
  - rewrite recharge_run. int_ops.
    destruct (negb (PyStr.isdigit number) || negb (PyStr.len number =? 10));
      cbn [fst]; [exact Hr|].
    destruct (amount >? balance (h self)) eqn:E; cbn [fst]; [exact Hr|].
    rewrite upd_balance_balance. destruct (Nat.eqb r self); [lia | exact Hr].
Qed.

(** On ints the invariant holds: an account whose balance is non-negative
    keeps a non-negative balance through every finite sequence of calls. *)
Lemma balance_never_negative (cs : list (call Z)) (h : Heap Z) (r : ref) :
  0 <= balance (h r) -> 0 <= balance (run cs h r).
Proof.
  unfold run. revert h.
  induction cs as [|c cs IH]; intros h Hr; cbn [fold_left].
  - exact Hr.
  - apply IH. now apply perform_nonneg.
Qed.

(** C2, at the inputs where the code departs from it.  The checks of the
    methods are comparisons, and every comparison with [nan] is false.
    [acc2] holds 500.0: [acc2.withdraw(float("nan"))] passes the check
    [amount > self.balance] and leaves the balance [nan], for which
    [balance >= 0] is false.  So do [deposit(inf)] followed by
    [withdraw(inf)], with [inf - inf].  The dashboard lets the user do it:
    [float("nan")] is not [<= 0], so [_prompt_amount] returns it, and
    [_withdraw] reports a success and saves the balance [nan]. *)
Theorem nan_breaks_balance_invariant :
  py_le py_zero (balance (float_heap acc2)) = true
  /\ outcome (withdraw acc2 nan) float_heap = inr tt
  /\ py_le py_zero (balance (store_after (withdraw acc2 nan) float_heap acc2)) = false
  /\ (let h := run [Deposit acc2 infinity; Withdraw acc2 infinity] float_heap in
      py_le py_zero (balance (h acc2)) = false)
  /\ (let done := _withdraw PyFloat.of_string PyFloat.repr acc2 (Some "nan") test_world in
      snd done = [showinfo "Success"]
      /\ py_le py_zero (balance (objects (fst done) acc2)) = false
      /\ data_txt (fst done)
         = Some ("11111,1111,personal,1000.0" ++ newline
                 ++ "22222,2222,business,nan" ++ newline)%string).
Proof. repeat split. Qed.

(** ** [withdraw] *)

(** C3 as the specification states it: a successful [withdraw] would lower
    the balance by exactly the amount.  On floats the difference is rounded:
    from a balance of 1e16, [withdraw(1.0)] succeeds and the balance is still
    1e16. *)
Lemma withdraw_rounds_on_floats :
  outcome (withdraw acc1 1%float) (all_hold 1e16%float) = inr tt
  /\ balance (all_hold 1e16%float acc1) = 1e16%float
  /\ balance (store_after (withdraw acc1 1%float) (all_hold 1e16%float) acc1)
     = 1e16%float.
Proof. repeat split. Qed.

Section Withdraw.

Context {N : Type} {number_ops : Number N}.

(** C3, amended.  [withdraw(amount)] raises the insufficient-funds
    [InputError] if and only if [amount > balance] at the call, and raises
    nothing else; when it fails the store is the one before the call; when it
    succeeds the balance of the account is [balance - amount] as the numbers
    subtract, rounded on floats, and nothing else has changed.  On ints the
    difference is exact. *)
Theorem withdraw_spec (self : ref) (amount : N) (h : Heap N) :
  (raises (withdraw self amount) h InsufficientFunds
   <-> py_gt amount (balance (h self)) = true)
  /\ (fails (withdraw self amount) h <-> py_gt amount (balance (h self)) = true)
  /\ (fails (withdraw self amount) h -> store_after (withdraw self amount) h = h)
  /\ (succeeds (withdraw self amount) h ->
      balance (store_after (withdraw self amount) h self)
      = py_sub (balance (h self)) amount
      /\ store_after (withdraw self amount) h
         = upd_balance h self (py_sub (balance (h self)) amount))
  /\ (forall (z : Z) (hz : Heap Z),
         (raises (withdraw self z) hz InsufficientFunds <-> z > balance (hz self))
         /\ (succeeds (withdraw self z) hz ->
             balance (store_after (withdraw self z) hz self) = balance (hz self) - z)).
Proof.
  unfold raises, fails, succeeds, outcome, store_after.
  split; [|split; [|split; [|split]]].
  1-4: rewrite withdraw_run;
    destruct (py_gt amount (balance (h self))) eqn:E; cbn [fst snd].
  - now split.
  - split; [discriminate | discriminate].
  - split; [reflexivity | eauto].
  - split; [now intros [e He] | discriminate].
  - reflexivity.
  - now intros [e He].
  - intros [a Ha]; discriminate.
  - intros _. split; [apply upd_balance_same | reflexivity].
  - intros z hz. rewrite withdraw_run. int_ops.
    destruct (z >? balance (hz self)) eqn:E; cbn [fst snd].
    + split; [split; [lia | reflexivity]|]. intros [a Ha]; discriminate.
    + split; [split; [discriminate | lia]|].
      intros _. apply upd_balance_same.
Qed.

End Withdraw.

Lemma withdraw_spec_witness :
  raises (withdraw acc2 10000%float) float_heap InsufficientFunds
  /\ store_after (withdraw acc2 10000%float) float_heap = float_heap
  /\ balance (store_after (withdraw acc2 300%float) float_heap acc2) = 200%float
  /\ balance (store_after (withdraw acc2 300) test_heap acc2) = 500 - 300.
Proof.
  destruct (withdraw_spec acc2 10000%float float_heap) as (Hr & Hf & Hu & _).
  destruct (withdraw_spec acc2 300%float float_heap) as (_ & _ & _ & Hs & Hz).
  split; [apply Hr; reflexivity|]. split; [apply Hu, Hf; reflexivity|].
  split; [rewrite (proj1 (Hs (ex_intro _ tt eq_refl))); reflexivity|].
  apply (Hz 300 test_heap). exists tt. reflexivity.
Defined.

(** ** [transfer] *)

(** C4 as the specification states it: a successful [transfer] would move
    exactly the amount and keep the sum of the two balances.  On floats both
    balances are rounded.  With 1.1 and 2.2, [transfer(0.7)] succeeds and the
    sum of the two balances is another float than before; with 1e16 and 0.0,
    [transfer(1.0)] succeeds, the receiver gets 1.0 and the sender still
    holds 1e16. *)
Lemma transfer_rounds_on_floats :
  (let h := two_accounts 1.1%float 2.2%float in
   let h' := store_after (transfer acc1 0.7%float acc2) h in
   outcome (transfer acc1 0.7%float acc2) h = inr tt
   /\ PrimFloat.eqb (balance (h' acc1) + balance (h' acc2))
        (balance (h acc1) + balance (h acc2)) = false)
  /\ (let h := two_accounts 1e16%float 0%float in
      let h' := store_after (transfer acc1 1%float acc2) h in
      outcome (transfer acc1 1%float acc2) h = inr tt
      /\ balance (h' acc1) = 1e16%float
      /\ balance (h' acc2) = 1%float).
Proof. repeat split. Qed.

Section Transfer.

Context {N : Type} {number_ops : Number N}.

Lemma transfer_succeeds_iff (self : ref) (amount : N) (receiver : ref) (h : Heap N) :
  succeeds (transfer self amount receiver) h
  <-> py_gt amount (balance (h self)) = false /\ py_le amount py_zero = false.
Proof.
  unfold succeeds, outcome. rewrite transfer_run.
  destruct (py_gt amount (balance (h self))) eqn:E; cbn [snd].
  - split; [now intros [a Ha] | now intros [H _]].
  - cbv zeta. destruct (py_le amount py_zero) eqn:E0; cbn [snd].
    + split; [now intros [a Ha] | now intros [_ H]].
    + split; [now split | eauto].
Qed.

Lemma transfer_moves (self receiver : ref) (amount : N) (h : Heap N) :
  self <> receiver ->
  succeeds (transfer self amount receiver) h ->
  balance (store_after (transfer self amount receiver) h self)
  = py_sub (balance (h self)) amount
  /\ balance (store_after (transfer self amount receiver) h receiver)
     = py_add (balance (h receiver)) amount.
Proof.
  intros Hne Hs.
  assert (Hrs : Nat.eqb receiver self = false)
    by (apply Nat.eqb_neq; congruence).
  apply Nat.eqb_neq in Hne as Hsr.
  apply transfer_succeeds_iff in Hs as [E E0].
  unfold store_after. rewrite transfer_run, E. cbv zeta. rewrite E0. cbn [fst].
  now rewrite !upd_balance_balance, !Nat.eqb_refl, ?Hsr, ?Hrs.
Qed.

End Transfer.

(** C4, amended.  For two distinct accounts, a [transfer(amount, receiver)]
    that succeeds leaves the sender with [balance - amount] and the receiver
    with [balance + amount], as the numbers subtract and add, rounded on
    floats; it succeeds exactly when neither [amount > balance] nor
    [amount <= 0] is true, and whenever [amount] exceeds the sender's
    balance it raises [FundTransferError] and leaves the store as it was.  On
    ints the amount moved is exact and the sum of the two balances is the one
    before the call. *)
Theorem transfer_spec {N : Type} {number_ops : Number N} (self receiver : ref)
    (amount : N) (h : Heap N) :
  self <> receiver ->
  (succeeds (transfer self amount receiver) h ->
   let h' := store_after (transfer self amount receiver) h in
   balance (h' self) = py_sub (balance (h self)) amount
   /\ balance (h' receiver) = py_add (balance (h receiver)) amount)
  /\ (succeeds (transfer self amount receiver) h
      <-> py_gt amount (balance (h self)) = false /\ py_le amount py_zero = false)
  /\ (py_gt amount (balance (h self)) = true ->
      raises (transfer self amount receiver) h TransferFailed
      /\ store_after (transfer self amount receiver) h = h)
  /\ (forall (z : Z) (hz : Heap Z),
         (succeeds (transfer self z receiver) hz <-> 0 < z <= balance (hz self))
         /\ (succeeds (transfer self z receiver) hz ->
             let hz' := store_after (transfer self z receiver) hz in
             balance (hz' self) = balance (hz self) - z
             /\ balance (hz' receiver) = balance (hz receiver) + z
             /\ balance (hz' self) + balance (hz' receiver)
                = balance (hz self) + balance (hz receiver))).
Proof.
  intros Hne. split; [|split; [|split]].
  - intros Hs. now apply transfer_moves.
  - apply transfer_succeeds_iff.
  - intros Hgt. unfold raises, outcome, store_after.
    rewrite transfer_run, Hgt. now split.
  - intros z hz.
    assert (Hiff : succeeds (transfer self z receiver) hz
                   <-> 0 < z <= balance (hz self)).
    { rewrite transfer_succeeds_iff. int_ops. lia. }
    split; [exact Hiff|]. intros Hs.
    destruct (transfer_moves self receiver z hz Hne Hs) as [Hself Hrecv].
    int_ops. cbv zeta. rewrite Hself, Hrecv. lia.
Qed.

Lemma transfer_spec_witness :
  acc1 <> acc2
  /\ succeeds (transfer acc1 200%float acc2) float_heap
  /\ balance (store_after (transfer acc1 200%float acc2) float_heap acc1) = 800%float
  /\ balance (store_after (transfer acc1 200%float acc2) float_heap acc2) = 700%float
  /\ raises (transfer acc1 2000%float acc2) float_heap TransferFailed
  /\ balance (store_after (transfer acc1 200 acc2) test_heap acc1)
     + balance (store_after (transfer acc1 200 acc2) test_heap acc2)
     = 1000 + 500.
Proof.
  assert (Hne : acc1 <> acc2) by discriminate.
  destruct (transfer_spec acc1 acc2 200%float float_heap Hne) as (Hok & Hiff & _ & Hz).
  destruct (transfer_spec acc1 acc2 2000%float float_heap Hne) as (_ & _ & Hfail & _).
  assert (Hs : succeeds (transfer acc1 200%float acc2) float_heap)
    by (apply Hiff; split; reflexivity).
  destruct (Hok Hs) as (H1 & H2).
  split; [exact Hne|]. split; [exact Hs|].
  split; [rewrite H1; reflexivity|]. split; [rewrite H2; reflexivity|].
  split; [apply Hfail; reflexivity|].
  destruct (Hz 200 test_heap) as (Hziff & Hzok).
  apply Hzok, Hziff. cbn. lia.
Defined.

(** ** [recharge] *)

Lemma char_isdigit_listed (c : ascii) :
  PyStr.char_isdigit c = occurs c python_digits.
Proof. destruct c as [[] [] [] [] [] [] [] []]; reflexivity. Qed.

Lemma all_impl (p q : ascii -> bool) (s : string) :
  (forall c, p c = true -> q c = true) ->
  PyStr.all p s = true -> PyStr.all q s = true.
Proof.
  intros Hpq. induction s as [|c s IH]; cbn; [reflexivity|].
  intros [Hc Hs]%andb_true_iff. now rewrite (Hpq c Hc), IH.
Qed.

Lemma all_ext (p q : ascii -> bool) (s : string) :
  (forall c, p c = q c) -> PyStr.all p s = PyStr.all q s.
Proof.
  intros Hpq. induction s as [|c s IH]; cbn; [reflexivity|].
  now rewrite Hpq, IH.
Qed.

(** The check of [recharge] fails exactly on the strings that are not ten
    characters out of ['0'..'9'] and the three superscripts. *)
Lemma phone_check (number : string) :
  negb (PyStr.isdigit number) || negb (PyStr.len number =? 10)
  = negb (ten_of python_digits number).
Proof.
  unfold ten_of, PyStr.len.
  rewrite <- (all_ext _ _ number char_isdigit_listed).
  assert (Hlen : (Z.of_nat (String.length number) =? 10)
                 = (String.length number =? 10)%nat).
  { destruct (Nat.eqb_spec (String.length number) 10) as [-> | Hne];
      [reflexivity | apply Z.eqb_neq; lia]. }
  rewrite Hlen. destruct number as [|c s]; [reflexivity|].
  unfold PyStr.isdigit.
  destruct (PyStr.all PyStr.char_isdigit (String c s)),
    (String.length (String c s) =? 10)%nat; reflexivity.
Qed.

Lemma ten_digits_listed (number : string) :
  ten_digits number = ten_of python_digits number.
Proof.
  unfold ten_digits, ten_of.
  now rewrite (all_ext _ _ number char_isdigit_listed).
Qed.

Lemma occurs_app (c : ascii) (s t : string) :
  occurs c (s ++ t) = occurs c s || occurs c t.
Proof.
  induction s as [|c' s IH]; cbn; [reflexivity|].
  now rewrite IH, orb_assoc.
Qed.

(** C6 as the specification states it.  First, [recharge] would refuse every
    number that is not ten decimal digits: it accepts ten superscript twos,
    which [str.isdigit] counts as digits.  Second, a successful [recharge]
    would lower the balance by exactly the amount: from 1e16,
    [recharge("1234567890", 1.0)] succeeds and the balance is still 1e16. *)
Lemma recharge_superscripts_and_rounding :
  (String.length superscript_twos = 10%nat
   /\ ten_of decimal_digits superscript_twos = false
   /\ outcome (recharge acc1 superscript_twos 100%float) float_heap = inr tt
   /\ outcome (recharge acc1 superscript_twos 100) test_heap = inr tt)
  /\ (outcome (recharge acc1 "1234567890" 1%float) (all_hold 1e16%float) = inr tt
      /\ balance (all_hold 1e16%float acc1) = 1e16%float
      /\ balance (store_after (recharge acc1 "1234567890" 1%float)
                    (all_hold 1e16%float) acc1) = 1e16%float).
Proof. repeat split. Qed.

(** C6, amended.  [recharge(number, amount)] raises the phone-number
    [InputError] whenever [number] is not exactly ten characters that
    [str.isdigit] accepts (the decimal digits and, below code point 256,
    the superscripts two, three and one), whatever the amount and the balance
    are: that check comes first; ten decimal digits always pass it.  With a
    number that passes, it raises the insufficient-balance [InputError]
    exactly when [amount > balance], and otherwise succeeds and leaves
    [balance - amount] as the numbers subtract, rounded on floats and exact
    on ints.  A failed call leaves the store as it was. *)
Theorem recharge_spec {N : Type} {number_ops : Number N} (self : ref)
    (number : string) (amount : N) (h : Heap N) :
  (ten_of python_digits number = false ->
   raises (recharge self number amount) h InvalidPhoneNumber
   /\ store_after (recharge self number amount) h = h)
  /\ (ten_of decimal_digits number = true -> ten_of python_digits number = true)
  /\ (ten_of python_digits number = true ->
      (raises (recharge self number amount) h InsufficientFundsTopUp
       <-> py_gt amount (balance (h self)) = true)
      /\ (fails (recharge self number amount) h
          <-> py_gt amount (balance (h self)) = true)
      /\ (py_gt amount (balance (h self)) = true ->
          store_after (recharge self number amount) h = h)
      /\ (py_gt amount (balance (h self)) = false ->
          outcome (recharge self number amount) h = inr tt
          /\ balance (store_after (recharge self number amount) h self)
             = py_sub (balance (h self)) amount
          /\ store_after (recharge self number amount) h
             = upd_balance h self (py_sub (balance (h self)) amount)))
  /\ (forall (z : Z) (hz : Heap Z),
         ten_of python_digits number = true ->
         (fails (recharge self number z) hz <-> z > balance (hz self))
         /\ (z <= balance (hz self) ->
             balance (store_after (recharge self number z) hz self)
             = balance (hz self) - z)).
Proof.
  unfold raises, fails, outcome, store_after.
  split; [|split; [|split]].
  - rewrite recharge_run, phone_check. intros ->. now split.
  - unfold ten_of, python_digits.
    intros [Hlen Hall]%andb_true_iff. rewrite Hlen. cbn [andb].
    revert Hall. apply all_impl. intros c Hc. now rewrite occurs_app, Hc.
  - rewrite recharge_run, phone_check. intros ->. cbn [negb].
    destruct (py_gt amount (balance (h self))) eqn:E; cbn [fst snd].
    + split; [now split|]. split; [split; [reflexivity | eauto]|].
      split; [reflexivity | discriminate].
    + split; [split; discriminate|].
      split; [split; [now intros [e He] | discriminate]|].
      split; [discriminate|]. intros _.
      split; [reflexivity|]. split; [apply upd_balance_same | reflexivity].
  - intros z hz Hnumber. rewrite recharge_run, phone_check, Hnumber. cbn [negb].
    int_ops. destruct (z >? balance (hz self)) eqn:E; cbn [fst snd].
    + split; [split; [lia | eauto] | lia].
    + split; [split; [now intros [e He] | lia]|].
      intros _. apply upd_balance_same.
Qed.

Lemma recharge_spec_witness :
  ten_of python_digits "123" = false
  /\ raises (recharge acc1 "123" 50%float) float_heap InvalidPhoneNumber
  /\ ten_of python_digits "12345abcde" = false
  /\ raises (recharge acc1 "12345abcde" 50%float) float_heap InvalidPhoneNumber
  /\ ten_of python_digits "1234567890" = true
  /\ raises (recharge acc2 "1234567890" 10000%float) float_heap InsufficientFundsTopUp
  /\ balance (store_after (recharge acc1 "1234567890" 100%float) float_heap acc1)
     = 900%float.
Proof.
  destruct (recharge_spec acc1 "123" 50%float float_heap) as (Hshort & _).
  destruct (recharge_spec acc1 "12345abcde" 50%float float_heap) as (Hletters & _).
  destruct (recharge_spec acc2 "1234567890" 10000%float float_heap)
    as (_ & _ & Hpoor & _).
  destruct (recharge_spec acc1 "1234567890" 100%float float_heap)
    as (_ & _ & Hok & _).
  split; [reflexivity|]. split; [apply Hshort; reflexivity|].
  split; [reflexivity|]. split; [apply Hletters; reflexivity|].
  split; [reflexivity|].
  split.
  - apply (proj1 (Hpoor eq_refl)). reflexivity.
  - destruct (Hok eq_refl) as (_ & _ & _ & Hdone).
    destruct (Hdone eq_refl) as (_ & -> & _). reflexivity.
Defined.

(** ** [deposit] followed by [withdraw] *)

(** C8 as the specification states it: [deposit(a)] and then [withdraw(a)]
    would restore the balance exactly.  On floats the sum and the difference
    are rounded: with a balance of 0.1 and [a = 0.2] both calls succeed and
    the balance ends at 0.10000000000000003. *)
Lemma deposit_withdraw_rounds_on_floats :
  let h := all_hold 0.1%float in
  let h1 := store_after (deposit acc1 0.2%float) h in
  let h2 := store_after (withdraw acc1 0.2%float) h1 in
  outcome (deposit acc1 0.2%float) h = inr tt
  /\ outcome (withdraw acc1 0.2%float) h1 = inr tt
  /\ run [Deposit acc1 0.2%float; Withdraw acc1 0.2%float] h = h2
  /\ balance (h2 acc1) = 0.10000000000000003%float
  /\ PrimFloat.eqb (balance (h2 acc1)) (balance (h acc1)) = false.
Proof. repeat split. Qed.

(** C8, amended.  When [deposit(a)] and the [withdraw(a)] after it both
    succeed, the balance they leave is [(balance + a) - a] as the numbers add
    and subtract, which on floats is rounded twice.  On ints, for an account
    whose balance is non-negative and a positive [a], both calls do succeed
    and the account, like every other, is then exactly as it was before. *)
Theorem deposit_then_withdraw {N : Type} {number_ops : Number N} (self : ref)
    (amount : N) (h : Heap N) :
  (let h1 := store_after (deposit self amount) h in
   let h2 := store_after (withdraw self amount) h1 in
   outcome (deposit self amount) h = inr tt ->
   outcome (withdraw self amount) h1 = inr tt ->
   balance (h2 self) = py_sub (py_add (balance (h self)) amount) amount
   /\ run [Deposit self amount; Withdraw self amount] h = h2)
  /\ (forall (a : Z) (hz : Heap Z),
         0 <= balance (hz self) ->
         0 < a ->
         let h1 := store_after (deposit self a) hz in
         let h2 := store_after (withdraw self a) h1 in
         outcome (deposit self a) hz = inr tt
         /\ outcome (withdraw self a) h1 = inr tt
         /\ balance (h2 self) = balance (hz self)
         /\ (forall r, h2 r = hz r)
         /\ run [Deposit self a; Withdraw self a] hz = h2).
Proof.
  split.
  - cbv zeta. unfold outcome, store_after, run. cbn [fold_left perform].
    unfold store_after. rewrite deposit_run.
    destruct (py_le amount py_zero); cbn [fst snd]; [discriminate|]. intros _.
    rewrite withdraw_run, upd_balance_same.
    destruct (py_gt amount (py_add (balance (h self)) amount)); cbn [fst snd];
      [discriminate|]. intros _.
    split; [apply upd_balance_same | reflexivity].
  - intros a hz Hb Ha. cbv zeta. unfold outcome, store_after, run.
    cbn [fold_left perform]. unfold store_after. rewrite deposit_run. int_ops.
    destruct (a <=? 0) eqn:E; [lia|]. cbn [fst snd].
    rewrite withdraw_run, upd_balance_same. int_ops.
    destruct (a >? balance (hz self) + a) eqn:E'; [lia|]. cbn [fst snd].
    replace (balance (hz self) + a - a) with (balance (hz self)) by lia.
    assert (Hsame : forall r,
               upd_balance (upd_balance hz self (balance (hz self) + a)) self
                 (balance (hz self)) r = hz r).
    { intros r. rewrite upd_balance_twice. apply upd_balance_id. }
    split; [reflexivity|]. split; [reflexivity|].
    split; [now rewrite Hsame|]. split; [exact Hsame | reflexivity].
Qed.

Lemma deposit_then_withdraw_witness :
  0 <= balance (test_heap acc1)
  /\ 0 < 250
  /\ balance (run [Deposit acc1 250; Withdraw acc1 250] test_heap acc1)
     = balance (test_heap acc1)
  /\ balance (run [Deposit acc1 0.2%float; Withdraw acc1 0.2%float]
                (all_hold 0.1%float) acc1)
     = (0.1 + 0.2 - 0.2)%float.
Proof.
  assert (Hb : 0 <= balance (test_heap acc1)) by (cbn; lia).
  assert (Ha : 0 < 250) by lia.
  destruct (deposit_then_withdraw acc1 0.2%float (all_hold 0.1%float))
    as (Hfloat & Hint).
  destruct (Hint 250 test_heap Hb Ha) as (_ & _ & Hsame & _ & Hrun).
  destruct (Hfloat eq_refl eq_refl) as (Hleft & Hrunf).
  split; [exact Hb|]. split; [exact Ha|].
  split; [rewrite Hrun; exact Hsame|].
  rewrite Hrunf. exact Hleft.
Defined.

(** ** Which methods check that the amount is positive *)

(** C9 as the specification states it: [recharge] would refuse every
    non-positive amount.  It does not: with a well-formed number,
    [recharge("1234567890", -50)] on a balance of 1000 succeeds and leaves
    1050.  And the non-positive amount 0 is accepted by [withdraw] without
    any increase of the balance. *)
Lemma recharge_accepts_negative_amount :
  outcome (recharge acc1 "1234567890" (-50)) test_heap = inr tt
  /\ balance (store_after (recharge acc1 "1234567890" (-50)) test_heap acc1) = 1050
  /\ ~ (forall (self : ref) (number : string) (amount : Z) (h : Heap Z),
           amount <= 0 -> fails (recharge self number amount) h)
  /\ outcome (withdraw acc1 0) test_heap = inr tt
  /\ balance (store_after (withdraw acc1 0) test_heap acc1) = balance (test_heap acc1).
Proof.
  split; [reflexivity|]. split; [reflexivity|].
  split; [|split; reflexivity].
  intros H.
  destruct (H acc1 "1234567890" (-50) test_heap) as [e He]; [lia|].
  discriminate He.
Qed.

(** C9, amended.  [withdraw] and [recharge] both lack a check that the
    amount is positive: called with an amount that is [<= 0] and not
    [> balance] (and, for [recharge], a number that passes its check) they
    succeed and leave [balance - amount] as the numbers subtract; on ints
    that is above the old balance when the amount is negative and equal to
    it when the amount is zero.  [transfer] is the one that never accepts
    such an amount: it raises its own error when [amount > balance] and the
    [InputError] of the receiver's [deposit] otherwise. *)
Theorem positivity_checks {N : Type} {number_ops : Number N} (self receiver : ref)
    (number : string) (amount : N) (h : Heap N) :
  py_le amount py_zero = true ->
  (py_gt amount (balance (h self)) = false ->
   outcome (withdraw self amount) h = inr tt
   /\ balance (store_after (withdraw self amount) h self)
      = py_sub (balance (h self)) amount)
  /\ (py_gt amount (balance (h self)) = false ->
      ten_of python_digits number = true ->
      outcome (recharge self number amount) h = inr tt
      /\ balance (store_after (recharge self number amount) h self)
         = py_sub (balance (h self)) amount)
  /\ (py_gt amount (balance (h self)) = true ->
      outcome (transfer self amount receiver) h = inl TransferFailed)
  /\ (py_gt amount (balance (h self)) = false ->
      outcome (transfer self amount receiver) h = inl InvalidAmount)
  /\ (forall (z : Z) (hz : Heap Z),
         z <= 0 -> z <= balance (hz self) ->
         (balance (store_after (withdraw self z) hz self) = balance (hz self) - z
          /\ balance (hz self) <= balance (store_after (withdraw self z) hz self)
          /\ (z < 0 ->
              balance (hz self) < balance (store_after (withdraw self z) hz self)))
         /\ (ten_of python_digits number = true ->
             balance (store_after (recharge self number z) hz self)
             = balance (hz self) - z
             /\ balance (hz self)
                <= balance (store_after (recharge self number z) hz self)
             /\ (z < 0 ->
                 balance (hz self)
                 < balance (store_after (recharge self number z) hz self)))
         /\ fails (transfer self z receiver) hz).
Proof.
  intros Hle. unfold fails, outcome, store_after.
  split; [|split; [|split; [|split]]].
  - rewrite withdraw_run. intros ->. cbn [fst snd].
    split; [reflexivity | apply upd_balance_same].
  - rewrite recharge_run, phone_check.
    intros -> ->. cbn [negb fst snd].
    split; [reflexivity | apply upd_balance_same].
  - rewrite transfer_run. now intros ->.
  - rewrite transfer_run. intros ->. cbv zeta. now rewrite Hle.
  - intros z hz Hz Hb. split; [|split].
    + rewrite withdraw_run. int_ops.
      destruct (z >? balance (hz self)) eqn:E; [lia|].
      cbn [fst]. rewrite upd_balance_same. repeat split; lia.
    + intros Hnumber. rewrite recharge_run, phone_check, Hnumber. cbn [negb].
      int_ops. destruct (z >? balance (hz self)) eqn:E; [lia|].
      cbn [fst]. rewrite upd_balance_same. repeat split; lia.
    + rewrite transfer_run. int_ops.
      destruct (z >? balance (hz self)) eqn:E; [cbn [snd]; eauto|].
      cbv zeta. destruct (z <=? 0) eqn:E0; [cbn [snd]; eauto | lia].
Qed.

Lemma positivity_checks_witness :
  py_le (-50)%float py_zero = true
  /\ outcome (withdraw acc1 (-50)%float) float_heap = inr tt
  /\ balance (store_after (withdraw acc1 (-50)%float) float_heap acc1) = 1050%float
  /\ outcome (recharge acc1 "1234567890" (-50)%float) float_heap = inr tt
  /\ outcome (transfer acc1 (-50)%float acc2) float_heap = inl InvalidAmount
  /\ balance (test_heap acc1)
     < balance (store_after (withdraw acc1 (-50)) test_heap acc1).
Proof.
  assert (Hle : py_le (-50)%float py_zero = true) by reflexivity.
  destruct (positivity_checks acc1 acc2 "1234567890" (-50)%float float_heap Hle)
    as (Hw & Hr & _ & Ht & Hz).
  destruct (Hw eq_refl) as (Hw1 & Hw2).
  destruct (Hr eq_refl eq_refl) as (Hr1 & _).
  split; [exact Hle|]. split; [exact Hw1|].
  split; [rewrite Hw2; reflexivity|].
  split; [exact Hr1|]. split; [exact (Ht eq_refl)|].
  destruct (Hz (-50) test_heap) as ((_ & _ & Hup) & _); [lia | cbn; lia |].
  apply Hup. lia.
Defined.

(** ** Dictionaries *)

Lemma dict_get_set_same {N : Type} (d : dict N) (k : string) (v : Account N) :
  dict_get (dict_set d k v) k = Some v.
Proof.
  induction d as [|[k' v'] d IH]; cbn.
  - now rewrite String.eqb_refl.
  - destruct (String.eqb k' k) eqn:E; cbn; rewrite E; [reflexivity | exact IH].
Qed.

Lemma dict_get_set_other {N : Type} (d : dict N) (k k0 : string) (v : Account N) :
  k0 <> k -> dict_get (dict_set d k v) k0 = dict_get d k0.
Proof.
  intros Hne. induction d as [|[k' v'] d IH]; cbn.
  - destruct (String.eqb_spec k k0); [congruence | reflexivity].
  - destruct (String.eqb_spec k' k) as [-> | Hk]; cbn.
    + destruct (String.eqb_spec k k0); [congruence | reflexivity].
    + now rewrite IH.
Qed.

Lemma dict_set_fresh {N : Type} (d : dict N) (k : string) (v : Account N) :
  ~ In k (dict_keys d) -> dict_set d k v = (d ++ [(k, v)])%list.
Proof.
  induction d as [|[k' v'] d IH]; cbn; intros Hfresh; [reflexivity|].
  destruct (String.eqb_spec k' k) as [-> | Hk].
  - exfalso. apply Hfresh. now left.
  - f_equal. apply IH. intros Hin. apply Hfresh. now right.
Qed.

Lemma dict_mem_get {N : Type} (d : dict N) (k : string) :
  dict_mem d k = true <-> exists v, dict_get d k = Some v.
Proof.
  unfold dict_mem. destruct (dict_get d k) as [v|].
  - split; eauto.
  - split; [discriminate | now intros [v Hv]].
Qed.

Lemma dict_mem_keys {N : Type} (d : dict N) (k : string) :
  dict_mem d k = true <-> In k (dict_keys d).
Proof.
  unfold dict_mem. induction d as [|[k' v'] d IH]; cbn.
  - split; [discriminate | tauto].
  - destruct (String.eqb_spec k' k) as [-> | Hk].
    + split; auto.
    + rewrite IH. split; [auto | intros [Heq | Hin]; [congruence | exact Hin]].
Qed.

(** ** [authenticate] *)

(** C5.  [authenticate(number, pin)] returns an account exactly when
    [number] is a key of the table and the pin stored under it equals [pin],
    and the account it returns is the stored one.  For an unknown number and
    for a known number with another pin it raises one and the same
    [InputError], and it raises nothing else. *)
Theorem authenticate_spec {N : Type} (users : dict N) (acc_num pin0 : string) :
  (forall acc,
      authenticate users acc_num pin0 = inr acc
      <-> dict_get users acc_num = Some acc /\ pin acc = pin0)
  /\ ((exists acc, authenticate users acc_num pin0 = inr acc)
      <-> dict_mem users acc_num = true
          /\ option_map pin (dict_get users acc_num) = Some pin0)
  /\ (dict_mem users acc_num = false ->
      authenticate users acc_num pin0 = inl AuthenticationFailed)
  /\ (forall acc,
         dict_get users acc_num = Some acc -> pin acc <> pin0 ->
         authenticate users acc_num pin0 = inl AuthenticationFailed)
  /\ (forall e, authenticate users acc_num pin0 = inl e -> e = AuthenticationFailed).
Proof.
  unfold authenticate, dict_mem.
  destruct (dict_get users acc_num) as [a|]; cbn [option_map].
  - destruct (String.eqb_spec (pin a) pin0) as [Heq | Hne].
    + split; [|split; [|split; [|split]]].
      * intros acc. split.
        -- intros [= ->]. now split.
        -- now intros [[= ->] _].
      * split; [intros _; split; [reflexivity | now rewrite Heq] | eauto].
      * discriminate.
      * intros acc [= ->] Hne. contradiction.
      * discriminate.
    + split; [|split; [|split; [|split]]].
      * intros acc. split; [discriminate|].
        intros [[= ->] Heq]. contradiction.
      * split; [now intros [acc Hacc] | intros [_ [= Heq]]; contradiction].
      * discriminate.
      * reflexivity.
      * now intros e [= <-].
  - split; [|split; [|split; [|split]]].
    + intros acc. split; [discriminate | now intros [Hget _]].
    + split; [now intros [acc Hacc] | now intros [Hmem _]].
    + reflexivity.
    + discriminate.
    + now intros e [= <-].
Qed.


Lemma authenticate_spec_witness :
  authenticate float_users "22222" "2222" = inr (float_heap acc2)
  /\ authenticate float_users "22222" "0000" = inl AuthenticationFailed
  /\ authenticate float_users "99999" "2222" = inl AuthenticationFailed.
Proof.
  destruct (authenticate_spec float_users "22222" "2222") as (Hok & _).
  destruct (authenticate_spec float_users "22222" "0000") as (_ & _ & _ & Hpin & _).
  destruct (authenticate_spec float_users "99999" "2222") as (_ & _ & Hnum & _).
  split; [apply Hok; now split|].
  split; [apply (Hpin (float_heap acc2)); [reflexivity | discriminate]|].
  apply Hnum. reflexivity.
Defined.

(** ** Loading one record *)

(** C10.  A line that unpacks into four fields, the last of which parses as
    a number, never raises: it stores under its number a [Personal] account
    when the kind field is the token [personal], and a [Business] account for
    every other token, [business] or not; the loader then goes on with the
    next line. *)
Theorem load_record_kind {N : Type} (py_float : string -> option N) (users : dict N)
    (line acc pwd typ bal : string) (b : N) :
  PyStr.split comma (PyStr.strip line) = [acc; pwd; typ; bal] ->
  py_float bal = Some b ->
  (typ = "personal" ->
   load_record py_float users line = inr (dict_set users acc (Personal acc pwd b)))
  /\ (typ <> "personal" ->
      load_record py_float users line = inr (dict_set users acc (Business acc pwd b)))
  /\ (exists users',
         load_record py_float users line = inr users'
         /\ dict_get users' acc
            = Some (if String.eqb typ "personal" then Personal acc pwd b
                    else Business acc pwd b)
         /\ forall rest,
             load_lines py_float users (line :: rest)
             = load_lines py_float users' rest).
Proof.
  intros Hsplit Hbal.
  assert (Hrec : load_record py_float users line
                 = inr (dict_set users acc
                          (if String.eqb typ "personal" then Personal acc pwd b
                           else Business acc pwd b))).
  { unfold load_record. rewrite Hsplit, Hbal.
    now destruct (String.eqb typ "personal"). }
  split; [|split].
  - intros ->. now rewrite Hrec.
  - intros Hne. apply String.eqb_neq in Hne. now rewrite Hrec, Hne.
  - eexists. split; [exact Hrec|]. split; [apply dict_get_set_same|].
    intros rest. cbn [load_lines]. now rewrite Hrec.
Qed.


Lemma load_record_kind_witness :
  load_record PyFloat.of_string [] ("10001,1234,personal,250.0" ++ newline)
  = inr [("10001", Personal "10001" "1234" 250%float)]
  /\ load_record PyFloat.of_string [] ("10002,4321,business,40.5" ++ newline)
     = inr [("10002", Business "10002" "4321" 40.5%float)]
  /\ load_record PyFloat.of_string [] ("10003,1111,savings,7" ++ newline)
     = inr [("10003", Business "10003" "1111" 7%float)].
Proof.
  split; [|split].
  - apply (load_record_kind PyFloat.of_string [] _ "10001" "1234" "personal"
             "250.0" 250%float); reflexivity.
  - apply (load_record_kind PyFloat.of_string [] _ "10002" "4321" "business"
             "40.5" 40.5%float); [reflexivity | reflexivity | discriminate].
  - apply (load_record_kind PyFloat.of_string [] _ "10003" "1111" "savings"
             "7" 7%float); [reflexivity | reflexivity | discriminate].
Defined.

(** ** Strings: stripping, splitting and line breaking *)

Lemma append_assoc (s t u : string) : ((s ++ t) ++ u = s ++ (t ++ u))%string.
Proof. induction s as [|c s IH]; cbn; [reflexivity | now rewrite IH]. Qed.

Lemma append_empty_r (s : string) : (s ++ "")%string = s.
Proof. induction s as [|c s IH]; cbn; [reflexivity | now rewrite IH]. Qed.

Lemma all_app (p : ascii -> bool) (s t : string) :
  PyStr.all p (s ++ t) = PyStr.all p s && PyStr.all p t.
Proof.
  induction s as [|c s IH]; cbn; [reflexivity|].
  now rewrite IH, andb_assoc.
Qed.

Lemma digit_field_char (c : ascii) :
  PyStr.char_isdigit c = true -> field_char c = true.
Proof.
  destruct c as [[] [] [] [] [] [] [] []]; cbv; intros H;
    solve [reflexivity | discriminate H].
Qed.

Lemma field_char_not_space (c : ascii) :
  field_char c = true -> PyStr.char_isspace c = false.
Proof.
  unfold field_char. intros [H _]%andb_true_iff. now apply negb_true_iff in H.
Qed.

Lemma field_char_not_comma (c : ascii) :
  field_char c = true -> Ascii.eqb c comma = false.
Proof.
  unfold field_char. intros [_ H]%andb_true_iff. now apply negb_true_iff in H.
Qed.

Lemma not_space_not_newline (c : ascii) :
  PyStr.char_isspace c = false -> Ascii.eqb c "010" = false.
Proof.
  intros Hc. destruct (Ascii.eqb_spec c "010") as [-> | Hne];
    [discriminate Hc | reflexivity].
Qed.

Lemma rstrip_newline (s : string) :
  PyStr.all no_space s = true ->
  PyStr.rstrip (s ++ newline) = s.
Proof.
  induction s as [|c s IH]; cbn; [reflexivity|].
  intros [Hc Hs]%andb_true_iff. apply negb_true_iff in Hc.
  rewrite (IH Hs). destruct s; [now rewrite Hc | reflexivity].
Qed.

Lemma lstrip_no_space (s t : string) :
  PyStr.all no_space s = true ->
  s <> EmptyString ->
  PyStr.lstrip (s ++ t) = (s ++ t)%string.
Proof.
  destruct s as [|c s]; [congruence|]. cbn.
  intros [Hc _]%andb_true_iff _. apply negb_true_iff in Hc. now rewrite Hc.
Qed.

Lemma strip_line (s : string) :
  PyStr.all no_space s = true ->
  PyStr.strip (s ++ newline) = s.
Proof.
  intros Hs. unfold PyStr.strip.
  destruct (String.eqb_spec s EmptyString) as [-> | Hne]; [reflexivity|].
  rewrite lstrip_no_space by assumption.
  now apply rstrip_newline.
Qed.

Lemma split_no_sep (sep : ascii) (s : string) :
  PyStr.all (fun c => negb (Ascii.eqb c sep)) s = true ->
  PyStr.split sep s = [s].
Proof.
  induction s as [|c s IH]; cbn; [reflexivity|].
  intros [Hc Hs]%andb_true_iff. apply negb_true_iff in Hc.
  now rewrite Hc, (IH Hs).
Qed.

Lemma split_at_sep (sep : ascii) (s t : string) :
  PyStr.all (fun c => negb (Ascii.eqb c sep)) s = true ->
  PyStr.split sep (s ++ String sep t) = s :: PyStr.split sep t.
Proof.
  induction s as [|c s IH]; cbn.
  - intros _. now rewrite Ascii.eqb_refl.
  - intros [Hc Hs]%andb_true_iff. apply negb_true_iff in Hc.
    now rewrite Hc, (IH Hs).
Qed.

Lemma lines_at_newline (s t : string) :
  PyStr.all no_newline s = true ->
  PyStr.lines ((s ++ newline) ++ t) = (s ++ newline)%string :: PyStr.lines t.
Proof.
  induction s as [|c s IH]; cbn; [reflexivity|].
  intros [Hc Hs]%andb_true_iff. apply negb_true_iff in Hc.
  now rewrite Hc, (IH Hs).
Qed.


(** ** Saving and loading the table *)

Section RoundTrip.

Context {N : Type}.

Variable py_float : string -> option N.
Variable py_str : N -> string.

Lemma record_line_fields (a : Account N) :
  record_line py_str a
  = ((num a ++ String comma (pin a ++ String comma (type a
       ++ String comma (py_str (balance a))))) ++ newline)%string.
Proof.
  unfold record_line, comma. cbn [append].
  repeat (rewrite append_assoc; cbn [append]). reflexivity.
Qed.

Lemma field_all (p : ascii -> bool) (a : Account N) (k : string) :
  (forall c, field_char c = true -> p c = true) ->
  p comma = true ->
  valid_record py_float py_str (k, a) ->
  PyStr.all p (num a ++ String comma (pin a ++ String comma (type a
       ++ String comma (py_str (balance a))))) = true.
Proof.
  intros Hp Hcomma (_ & Hnum & Hpin & Htype & _ & Hbal).
  assert (Hdigits : forall s, PyStr.all PyStr.char_isdigit s = true ->
                              PyStr.all p s = true).
  { intros s. apply all_impl. intros c Hc. now apply Hp, digit_field_char. }
  assert (Hty : PyStr.all p (type a) = true).
  { apply (all_impl field_char); [exact Hp|].
    destruct Htype as [-> | ->]; reflexivity. }
  rewrite all_app, (Hdigits _ Hnum). cbn. rewrite Hcomma.
  rewrite all_app, (Hdigits _ Hpin). cbn. rewrite Hcomma.
  rewrite all_app, Hty. cbn. rewrite Hcomma.
  now apply (all_impl field_char).
Qed.

Lemma load_record_line (users : dict N) (k : string) (a : Account N) :
  valid_record py_float py_str (k, a) ->
  load_record py_float users (record_line py_str a) = inr (dict_set users k a).
Proof.
  intros Hv. pose proof Hv as (Hk & Hnum & Hpin & Htype & Hparse & Hbal).
  assert (Hnc : forall s, PyStr.all field_char s = true ->
                          PyStr.all no_comma s = true).
  { intros s. apply all_impl. intros c Hc. unfold no_comma.
    now rewrite (field_char_not_comma c Hc). }
  assert (Hdc : forall s, PyStr.all PyStr.char_isdigit s = true ->
                          PyStr.all no_comma s = true).
  { intros s Hs. apply Hnc. revert Hs. apply all_impl, digit_field_char. }
  unfold load_record. rewrite record_line_fields, strip_line.
  - rewrite (split_at_sep comma) by apply (Hdc _ Hnum).
    rewrite (split_at_sep comma) by apply (Hdc _ Hpin).
    rewrite (split_at_sep comma)
      by (apply Hnc; destruct Htype as [-> | ->]; reflexivity).
    rewrite (split_no_sep comma) by apply (Hnc _ Hbal).
    rewrite Hparse, Hk. destruct a as [n p t b]; cbn in *.
    destruct Htype as [-> | ->]; reflexivity.
  - apply (field_all no_space a k); [|reflexivity | exact Hv].
    intros c Hc. unfold no_space. now rewrite (field_char_not_space c Hc).
Qed.

Lemma lines_saved (entries : dict N) :
  Forall (valid_record py_float py_str) entries ->
  PyStr.lines (String.concat "" (map (record_line py_str) (dict_values entries)))
  = map (record_line py_str) (dict_values entries).
Proof.
  induction 1 as [|[k a] entries Hv Hrest IH]; [reflexivity|].
  assert (Hhead : forall t,
             PyStr.lines (record_line py_str a ++ t)
             = record_line py_str a :: PyStr.lines t).
  { intros t. rewrite record_line_fields. apply lines_at_newline.
    apply (field_all no_newline a k); [|reflexivity | exact Hv].
    intros c Hc. unfold no_newline.
    now rewrite (not_space_not_newline c (field_char_not_space c Hc)). }
  unfold dict_values in *. cbn [map snd].
  destruct (map (record_line py_str) (map snd entries)) as [|l ls] eqn:E.
  - cbn [String.concat].
    rewrite <- (append_empty_r (record_line py_str a)) at 1.
    now rewrite Hhead.
  - change (String.concat "" (record_line py_str a :: l :: ls))
      with (record_line py_str a ++ "" ++ String.concat "" (l :: ls))%string.
    cbn [append]. now rewrite Hhead, IH.
Qed.

Lemma load_saved_lines (loaded rest : dict N) :
  NoDup (dict_keys (loaded ++ rest)%list) ->
  Forall (valid_record py_float py_str) rest ->
  load_lines py_float loaded (map (record_line py_str) (dict_values rest))
  = inr (loaded ++ rest)%list.
Proof.
  revert loaded.
  induction rest as [|[k a] rest IH]; intros loaded Hnodup Hvalid.
  - cbn. now rewrite app_nil_r.
  - inversion Hvalid as [|entry rest' Hentry Hrest]; subst.
    unfold dict_values. cbn [map snd load_lines].
    rewrite (load_record_line loaded k a Hentry).
    unfold dict_keys in Hnodup. rewrite map_app in Hnodup. cbn [map fst] in Hnodup.
    rewrite dict_set_fresh.
    + replace (loaded ++ (k, a) :: rest)%list
        with ((loaded ++ [(k, a)]) ++ rest)%list
        by now rewrite <- app_assoc.
      apply IH; [|exact Hrest].
      unfold dict_keys. rewrite !map_app. cbn [map fst].
      now rewrite <- app_assoc.
    + intros Hin. apply (NoDup_remove_2 _ _ _ Hnodup).
      apply in_or_app. now left.
Qed.

(** C7.  A table built purely from valid records survives the round trip
    through the store: saving it and then loading the saved text into a
    fresh ledger gives the same table back, with the same numbers, pins,
    kinds and balances, in the same order. *)
Theorem save_load_roundtrip (users : dict N) :
  valid_table py_float py_str users ->
  BankCore py_float (_save_data py_str users) = inr users.
Proof.
  intros [Hnodup Hvalid]. unfold BankCore, _save_data, _load_data.
  rewrite (lines_saved users Hvalid).
  now apply (load_saved_lines [] users).
Qed.

End RoundTrip.

Lemma float_users_valid : valid_table PyFloat.of_string PyFloat.repr float_users.
Proof.
  split.
  - apply NoDup_cons; [intros [H | []]; discriminate H|].
    apply NoDup_cons; [intros [] | apply NoDup_nil].
  - unfold float_users.
    apply Forall_cons; [|apply Forall_cons; [|apply Forall_nil]];
      (split; [reflexivity|]; split; [reflexivity|]; split; [reflexivity|];
       split; [auto|]; split; vm_compute; reflexivity).
Qed.

Lemma save_load_roundtrip_witness :
  valid_table PyFloat.of_string PyFloat.repr float_users
  /\ BankCore PyFloat.of_string (_save_data PyFloat.repr float_users)
     = inr float_users.
Proof.
  split; [exact float_users_valid|].
  apply (save_load_roundtrip PyFloat.of_string PyFloat.repr float_users
           float_users_valid).
Defined.

Example saved_float_users :
  _save_data PyFloat.repr float_users
  = Some ("11111,1111,personal,1000.0" ++ newline
          ++ "22222,2222,business,500.0" ++ newline)%string.
Proof. reflexivity. Qed.

(** The accounts of the unit tests hold ints, which are written without a
    fraction. *)
Example saved_test_users :
  _save_data int_str test_users
  = Some ("11111,1111,personal,1000" ++ newline
          ++ "22222,2222,business,500" ++ newline)%string.
Proof. reflexivity. Qed.

Example no_store_file {N : Type} (py_float : string -> option N) :
  BankCore py_float None = inr [].
Proof. reflexivity. Qed.

(** * Further properties of the code *)

(** ** [deposit] *)

(** X1.  [deposit(amount)] raises its [InputError] exactly when
    [amount <= 0] is true, and then the store is untouched; for every other
    amount ([nan] is one) it succeeds, the balance of the account becomes
    [balance + amount] as the numbers add, rounded on floats and exact on
    ints, and nothing else in the store changes. *)
Theorem deposit_spec {N : Type} {number_ops : Number N} (self : ref) (amount : N)
    (h : Heap N) :
  (raises (deposit self amount) h InvalidAmount <-> py_le amount py_zero = true)
  /\ (fails (deposit self amount) h <-> py_le amount py_zero = true)
  /\ (py_le amount py_zero = true -> store_after (deposit self amount) h = h)
  /\ (py_le amount py_zero = false ->
      outcome (deposit self amount) h = inr tt
      /\ balance (store_after (deposit self amount) h self)
         = py_add (balance (h self)) amount
      /\ store_after (deposit self amount) h
         = upd_balance h self (py_add (balance (h self)) amount))
  /\ (forall (z : Z) (hz : Heap Z),
         (fails (deposit self z) hz <-> z <= 0)
         /\ (0 < z ->
             balance (store_after (deposit self z) hz self) = balance (hz self) + z)).
Proof.
  unfold raises, fails, outcome, store_after.
  split; [|split; [|split; [|split]]].
  1-4: rewrite deposit_run; destruct (py_le amount py_zero) eqn:E; cbn [fst snd].
  - now split.
  - split; discriminate.
  - split; [reflexivity | eauto].
  - split; [now intros [e He] | discriminate].
  - reflexivity.
  - discriminate.
  - discriminate.
  - intros _. split; [reflexivity|]. split; [apply upd_balance_same | reflexivity].
  - intros z hz. rewrite deposit_run. int_ops.
    destruct (z <=? 0) eqn:E; cbn [fst snd].
    + split; [split; [lia | eauto] | lia].
    + split; [split; [now intros [e He] | lia]|].
      intros _. apply upd_balance_same.
Qed.

Lemma deposit_spec_witness :
  raises (deposit acc1 (-100)%float) float_heap InvalidAmount
  /\ raises (deposit acc1 0%float) float_heap InvalidAmount
  /\ balance (store_after (deposit acc1 500%float) float_heap acc1) = 1500%float
  /\ outcome (deposit acc1 nan) float_heap = inr tt
  /\ balance (store_after (deposit acc1 500) test_heap acc1) = 1000 + 500.
Proof.
  destruct (deposit_spec acc1 (-100)%float float_heap) as (Hneg & _).
  destruct (deposit_spec acc1 0%float float_heap) as (Hzero & _).
  destruct (deposit_spec acc1 500%float float_heap) as (_ & _ & _ & Hok & Hint).
  destruct (deposit_spec acc1 nan float_heap) as (_ & _ & _ & Hnan & _).
  split; [apply Hneg; reflexivity|]. split; [apply Hzero; reflexivity|].
  split; [rewrite (proj1 (proj2 (Hok eq_refl))); reflexivity|].
  split; [apply Hnan; reflexivity|].
  apply (Hint 500 test_heap). lia.
Defined.

(** ** What the methods leave alone *)

Section Frame.

Context {N : Type} {number_ops : Number N}.

Lemma perform_identity (c : call N) (h : Heap N) (r : ref) :
  num (store_after (perform c) h r) = num (h r)
  /\ pin (store_after (perform c) h r) = pin (h r)
  /\ type (store_after (perform c) h r) = type (h r).
Proof.
  unfold store_after.
  destruct c as [self amount | self amount | self amount receiver
                | self number amount]; cbn [perform].
  - rewrite deposit_run. destruct (py_le amount py_zero); cbn [fst];
      [now repeat split | apply upd_balance_identity].
  - rewrite withdraw_run. destruct (py_gt amount (balance (h self))); cbn [fst];
      [now repeat split | apply upd_balance_identity].
  - rewrite transfer_run. destruct (py_gt amount (balance (h self))); cbn [fst];
      [now repeat split|].
    cbv zeta. destruct (py_le amount py_zero); cbn [fst].
    + apply upd_balance_identity.
    + destruct (upd_balance_identity
                  (upd_balance h self (py_sub (balance (h self)) amount)) receiver r
                  (py_add (balance (upd_balance h self
                                      (py_sub (balance (h self)) amount) receiver))
                     amount)) as (-> & -> & ->).
      apply upd_balance_identity.
  - rewrite recharge_run.
    destruct (negb (PyStr.isdigit number) || negb (PyStr.len number =? 10));
      cbn [fst]; [now repeat split|].
    destruct (py_gt amount (balance (h self))); cbn [fst];
      [now repeat split | apply upd_balance_identity].
Qed.

(** X2.  No sequence of [deposit], [withdraw], [transfer] and [recharge]
    calls, failed ones included, ever changes the number, the pin or the
    kind of any account: the methods write balances only. *)
Theorem calls_keep_identity (cs : list (call N)) (h : Heap N) (r : ref) :
  num (run cs h r) = num (h r)
  /\ pin (run cs h r) = pin (h r)
  /\ type (run cs h r) = type (h r).
Proof.
  unfold run. revert h.
  induction cs as [|c cs IH]; intros h; cbn [fold_left]; [now repeat split|].
  destruct (IH (store_after (perform c) h)) as (-> & -> & ->).
  apply perform_identity.
Qed.

Lemma perform_local (c : call N) (h : Heap N) (r : ref) :
  ~ In r (parties c) -> store_after (perform c) h r = h r.
Proof.
  unfold store_after.
  destruct c as [self amount | self amount | self amount receiver
                | self number amount]; cbn [perform parties In]; intros Hout.
  - rewrite deposit_run. destruct (py_le amount py_zero); cbn [fst]; [reflexivity|].
    apply upd_balance_other. intros ->. tauto.
  - rewrite withdraw_run. destruct (py_gt amount (balance (h self))); cbn [fst];
      [reflexivity|].
    apply upd_balance_other. intros ->. tauto.
  - assert (Hs : r <> self) by (intros ->; tauto).
    assert (Hr : r <> receiver) by (intros ->; tauto).
    rewrite transfer_run. destruct (py_gt amount (balance (h self))); cbn [fst];
      [reflexivity|].
    cbv zeta. destruct (py_le amount py_zero); cbn [fst];
      now rewrite ?(upd_balance_other _ receiver r _ Hr),
        (upd_balance_other _ self r _ Hs).
  - rewrite recharge_run.
    destruct (negb (PyStr.isdigit number) || negb (PyStr.len number =? 10));
      cbn [fst]; [reflexivity|].
    destruct (py_gt amount (balance (h self))); cbn [fst]; [reflexivity|].
    apply upd_balance_other. intros ->. tauto.
Qed.

(** X3.  A call touches only the objects it is made on or handed: an account
    that is neither the [self] nor the [receiver] of any call of a sequence
    is, after the sequence, exactly as it was. *)
Theorem calls_are_local (cs : list (call N)) (h : Heap N) (r : ref) :
  (forall c, In c cs -> ~ In r (parties c)) -> run cs h r = h r.
Proof.
  unfold run. revert h.
  induction cs as [|c cs IH]; intros h Hout; cbn [fold_left]; [reflexivity|].
  rewrite IH.
  - apply perform_local, Hout. now left.
  - intros c' Hc'. apply Hout. now right.
Qed.

End Frame.

Lemma calls_are_local_witness :
  run [Deposit acc1 10%float; Withdraw acc1 2000%float;
       Recharge acc1 "1234567890" 5%float; Transfer acc1 7%float 2%nat]
    float_heap acc2
  = float_heap acc2.
Proof.
  apply (calls_are_local
           [Deposit acc1 10%float; Withdraw acc1 2000%float;
            Recharge acc1 "1234567890" 5%float; Transfer acc1 7%float 2%nat]
           float_heap acc2).
  intros c [<- | [<- | [<- | [<- | []]]]]; cbn;
    intros H; repeat (destruct H as [H | H]; [discriminate H|]); exact H.
Defined.

(** ** More on [transfer] *)

(** X4.  A transfer to the account itself that passes both checks succeeds,
    touches no other account and leaves on the account
    [(balance - amount) + amount] as the numbers subtract and add.  On ints
    that is the old balance and the whole store is as it was; on floats it is
    rounded twice and can differ: 0.9 and 0.2 leave 0.8999999999999999. *)
Theorem transfer_to_self {N : Type} {number_ops : Number N} (self : ref)
    (amount : N) (h : Heap N) :
  (py_gt amount (balance (h self)) = false -> py_le amount py_zero = false ->
   outcome (transfer self amount self) h = inr tt
   /\ balance (store_after (transfer self amount self) h self)
      = py_add (py_sub (balance (h self)) amount) amount
   /\ forall r, r <> self -> store_after (transfer self amount self) h r = h r)
  /\ (forall (z : Z) (hz : Heap Z),
         0 < z <= balance (hz self) ->
         outcome (transfer self z self) hz = inr tt
         /\ forall r, store_after (transfer self z self) hz r = hz r)
  /\ balance (store_after (transfer acc1 0.2%float acc1) (all_hold 0.9%float) acc1)
     = 0.8999999999999999%float.
Proof.
  split; [|split; [|reflexivity]].
  - intros Hgt Hle. unfold outcome, store_after.
    rewrite transfer_run, Hgt. cbv zeta. rewrite Hle. cbn [fst snd].
    split; [reflexivity|]. split.
    + now rewrite !upd_balance_same.
    + intros r Hr. now rewrite !upd_balance_other.
  - intros z hz Hz. unfold outcome, store_after. rewrite transfer_run. int_ops.
    destruct (z >? balance (hz self)) eqn:E; [lia|].
    cbv zeta. destruct (z <=? 0) eqn:E0; [lia|]. cbn [fst snd].
    split; [reflexivity|]. intros r.
    rewrite upd_balance_same, upd_balance_twice.
    replace (balance (hz self) - z + z) with (balance (hz self)) by lia.
    apply upd_balance_id.
Qed.

Lemma transfer_to_self_witness :
  0 < 200 <= balance (test_heap acc1)
  /\ outcome (transfer acc1 200 acc1) test_heap = inr tt
  /\ store_after (transfer acc1 200 acc1) test_heap acc1 = test_heap acc1
  /\ outcome (transfer acc1 200%float acc1) float_heap = inr tt.
Proof.
  assert (H : 0 < 200 <= balance (test_heap acc1)) by (cbn; lia).
  destruct (transfer_to_self acc1 200%float float_heap) as (Hfloat & Hint & _).
  destruct (Hint 200 test_heap H) as (Hok & Hsame).
  split; [exact H|]. split; [exact Hok|]. split; [apply Hsame|].
  apply Hfloat; reflexivity.
Defined.

(** X5.  A transfer that fails takes money from nobody: no balance is lower
    after it than before, the receiver (when it is another account) is
    untouched, and the sender is untouched as well unless the amount is
    negative. *)
Theorem failed_transfer_takes_nothing (self receiver : ref) (amount : Z)
    (h : Heap Z) :
  fails (transfer self amount receiver) h ->
  (forall r, balance (h r) <= balance (store_after (transfer self amount receiver) h r))
  /\ (receiver <> self ->
      store_after (transfer self amount receiver) h receiver = h receiver)
  /\ (0 <= amount -> forall r, store_after (transfer self amount receiver) h r = h r).
Proof.
  intros Hfail.
  destruct (transfer_fail_cases self amount receiver h Hfail)
    as [(_ & _ & ->) | (Hle & _ & _ & ->)]; int_ops.
  - split; [intros r; lia|]. split; reflexivity.
  - split; [|split].
    + intros r. rewrite upd_balance_balance.
      destruct (Nat.eqb r self) eqn:E; [|lia].
      apply Nat.eqb_eq in E as ->. lia.
    + intros Hne. now apply upd_balance_other.
    + intros H0 r. replace amount with 0 by lia.
      rewrite Z.sub_0_r. apply upd_balance_id.
Qed.

Lemma failed_transfer_takes_nothing_witness :
  fails (transfer acc1 2000 acc2) test_heap
  /\ store_after (transfer acc1 2000 acc2) test_heap acc2 = test_heap acc2
  /\ balance (test_heap acc1)
     <= balance (store_after (transfer acc1 2000 acc2) test_heap acc1).
Proof.
  assert (Hfail : fails (transfer acc1 2000 acc2) test_heap)
    by (exists TransferFailed; reflexivity).
  destruct (failed_transfer_takes_nothing acc1 acc2 2000 test_heap Hfail)
    as (Hall & Hrecv & _).
  split; [exact Hfail|]. split; [apply Hrecv; discriminate | apply Hall].
Defined.

(** ** [recharge] and [withdraw] *)

(** X6.  With a well-formed phone number, [recharge] does to the store
    exactly what [withdraw] of the same amount does, and it succeeds exactly
    when that [withdraw] succeeds; only the message of the error differs. *)
Theorem recharge_as_withdraw {N : Type} {number_ops : Number N} (self : ref)
    (number : string) (amount : N) (h : Heap N) :
  ten_digits number = true ->
  store_after (recharge self number amount) h = store_after (withdraw self amount) h
  /\ (succeeds (recharge self number amount) h <-> succeeds (withdraw self amount) h)
  /\ (raises (recharge self number amount) h InsufficientFundsTopUp
      <-> raises (withdraw self amount) h InsufficientFunds).
Proof.
  intros Hnumber. unfold succeeds, raises, outcome, store_after.
  rewrite recharge_run, withdraw_run, phone_check, <- ten_digits_listed, Hnumber.
  cbn [negb].
  destruct (py_gt amount (balance (h self))); cbn [fst snd].
  - split; [reflexivity|]. split; [|now split].
    split; intros [a Ha]; discriminate Ha.
  - split; [reflexivity|]. split; [now split|].
    split; discriminate.
Qed.

Lemma recharge_as_withdraw_witness :
  ten_digits "1234567890" = true
  /\ store_after (recharge acc1 "1234567890" 100%float) float_heap
     = store_after (withdraw acc1 100%float) float_heap.
Proof.
  split; [reflexivity|].
  apply (recharge_as_withdraw acc1 "1234567890" 100%float float_heap). reflexivity.
Defined.

(** ** More on dictionaries *)

Lemma dict_get_in_keys {N : Type} (d : dict N) (k : string) (v : Account N) :
  dict_get d k = Some v -> In k (dict_keys d).
Proof.
  intros Hget. apply dict_mem_keys. unfold dict_mem. now rewrite Hget.
Qed.

Lemma dict_get_not_in_keys {N : Type} (d : dict N) (k : string) :
  ~ In k (dict_keys d) -> dict_get d k = None.
Proof.
  intros Hout. destruct (dict_get d k) as [v|] eqn:E; [|reflexivity].
  exfalso. eapply Hout, dict_get_in_keys, E.
Qed.

Lemma dict_keys_set {N : Type} (d : dict N) (k : string) (v : Account N) :
  dict_keys (dict_set d k v)
  = if dict_mem d k then dict_keys d else (dict_keys d ++ [k])%list.
Proof.
  unfold dict_mem, dict_keys. induction d as [|[k' v'] d IH]; cbn; [reflexivity|].
  destruct (String.eqb_spec k' k) as [-> | Hne]; cbn; [reflexivity|].
  rewrite IH. now destruct (dict_get d k).
Qed.

Lemma dict_set_nodup {N : Type} (d : dict N) (k : string) (v : Account N) :
  NoDup (dict_keys d) -> NoDup (dict_keys (dict_set d k v)).
Proof.
  intros Hd. rewrite dict_keys_set. destruct (dict_mem d k) eqn:E; [exact Hd|].
  assert (Hout : ~ In k (dict_keys d)).
  { intros Hin. apply dict_mem_keys in Hin. congruence. }
  apply NoDup_rev in Hd. rewrite <- (rev_involutive (dict_keys d ++ [k])).
  apply NoDup_rev. rewrite rev_app_distr. cbn.
  apply NoDup_cons; [|exact Hd]. now rewrite <- in_rev.
Qed.

Lemma dict_set_forall {N : Type} (P : string * Account N -> Prop) (d : dict N) (k : string)
    (v : Account N) :
  P (k, v) -> Forall P d -> Forall P (dict_set d k v).
Proof.
  intros Hv. induction 1 as [|[k' v'] d Hhead Htail IH]; cbn.
  - now repeat constructor.
  - destruct (String.eqb_spec k' k) as [-> | Hne]; now constructor.
Qed.

Lemma dict_set_length {N : Type} (d : dict N) (k : string) (v : Account N) :
  List.length (dict_set d k v)
  = if dict_mem d k then List.length d else S (List.length d).
Proof.
  unfold dict_mem. induction d as [|[k' v'] d IH]; cbn; [reflexivity|].
  destruct (String.eqb k' k); cbn; [reflexivity|].
  rewrite IH. now destruct (dict_get d k).
Qed.

Lemma dict_keys_del {N : Type} (d : dict N) (k : string) :
  forall k', In k' (dict_keys (dict_del d k)) -> In k' (dict_keys d).
Proof.
  induction d as [|[k0 v0] d IH]; cbn; [tauto|].
  intros k'. destruct (String.eqb k0 k); cbn; [tauto|].
  intros [-> | Hin]; [now left | right; now apply IH].
Qed.

Lemma dict_del_nodup {N : Type} (d : dict N) (k : string) :
  NoDup (dict_keys d) -> NoDup (dict_keys (dict_del d k)).
Proof.
  induction d as [|[k0 v0] d IH]; cbn; [trivial|].
  intros Hd. inversion Hd as [|k1 ks Hout Hrest]; subst.
  destruct (String.eqb k0 k); cbn; [exact Hrest|].
  apply NoDup_cons; [|now apply IH].
  intros Hin. now apply Hout, (dict_keys_del d k).
Qed.

Lemma dict_del_forall {N : Type} (P : string * Account N -> Prop) (d : dict N) (k : string) :
  Forall P d -> Forall P (dict_del d k).
Proof.
  induction 1 as [|[k' v'] d Hhead Htail IH]; cbn; [constructor|].
  destruct (String.eqb k' k); [exact Htail | now constructor].
Qed.

Lemma dict_get_del_same {N : Type} (d : dict N) (k : string) :
  NoDup (dict_keys d) -> dict_get (dict_del d k) k = None.
Proof.
  induction d as [|[k0 v0] d IH]; cbn; [reflexivity|].
  intros Hd. inversion Hd as [|k1 ks Hout Hrest]; subst.
  destruct (String.eqb_spec k0 k) as [-> | Hne].
  - now apply dict_get_not_in_keys.
  - cbn. apply String.eqb_neq in Hne as ->. now apply IH.
Qed.

Lemma dict_get_del_other {N : Type} (d : dict N) (k k' : string) :
  k' <> k -> dict_get (dict_del d k) k' = dict_get d k'.
Proof.
  intros Hne. induction d as [|[k0 v0] d IH]; cbn; [reflexivity|].
  destruct (String.eqb_spec k0 k) as [-> | Hk]; cbn.
  - destruct (String.eqb_spec k k'); [congruence | reflexivity].
  - now rewrite IH.
Qed.

Lemma dict_del_length {N : Type} (d : dict N) (k : string) :
  dict_mem d k = true -> S (List.length (dict_del d k)) = List.length d.
Proof.
  unfold dict_mem. induction d as [|[k0 v0] d IH]; cbn; [discriminate|].
  destruct (String.eqb k0 k); cbn; [reflexivity|].
  intros Hmem. now rewrite IH.
Qed.

(** ** [remove_account] *)

(** X8.  [remove_account(number)] raises [InputError] when the number is not
    in the table.  When it is, the entry goes and the table is one shorter:
    the number is no key any more, no pin authenticates it, and the entries
    of all other numbers are as they were. *)
Theorem remove_account_spec {N : Type} (users : dict N) (acc_num : string) :
  NoDup (dict_keys users) ->
  (dict_mem users acc_num = false ->
   remove_account users acc_num = inl AccountNotFound)
  /\ (dict_mem users acc_num = true ->
      exists users',
        remove_account users acc_num = inr users'
        /\ dict_mem users' acc_num = false
        /\ (forall pin0, authenticate users' acc_num pin0 = inl AuthenticationFailed)
        /\ (forall k, k <> acc_num -> dict_get users' k = dict_get users k)
        /\ S (List.length users') = List.length users
        /\ NoDup (dict_keys users')).
Proof.
  intros Hkeys. unfold remove_account. split; intros Hmem; rewrite Hmem.
  - reflexivity.
  - exists (dict_del users acc_num).
    pose proof (dict_get_del_same users acc_num Hkeys) as Hgone.
    split; [reflexivity|]. split; [unfold dict_mem; now rewrite Hgone|].
    split; [intros pin0; unfold authenticate; now rewrite Hgone|].
    split; [intros k Hk; now apply dict_get_del_other|].
    split; [now apply dict_del_length | now apply dict_del_nodup].
Qed.


Lemma remove_account_spec_witness :
  NoDup (dict_keys float_users)
  /\ remove_account float_users "99999" = inl AccountNotFound
  /\ exists users',
       remove_account float_users "11111" = inr users'
       /\ authenticate users' "11111" "1111" = inl AuthenticationFailed
       /\ authenticate users' "22222" "2222" = inr (float_heap acc2).
Proof.
  assert (Hkeys : NoDup (dict_keys float_users)).
  { apply NoDup_cons; [intros [H | []]; discriminate H|].
    apply NoDup_cons; [intros [] | apply NoDup_nil]. }
  destruct (remove_account_spec float_users "99999" Hkeys) as (Hmissing & _).
  destruct (remove_account_spec float_users "11111" Hkeys) as (_ & Hpresent).
  destruct (Hpresent eq_refl) as (users' & Hrm & _ & Hauth & Hother & _).
  split; [exact Hkeys|]. split; [apply Hmissing; reflexivity|].
  exists users'. split; [exact Hrm|]. split; [apply Hauth|].
  unfold authenticate. rewrite (Hother "22222") by discriminate. reflexivity.
Defined.

(** ** [new_account] *)

Lemma all_from_spec (p : Z -> bool) (n : nat) :
  forall z, all_from p z n = true ->
  forall x, z <= x < z + Z.of_nat n -> p x = true.
Proof.
  induction n as [|n IH]; intros z Hall x Hx; [lia|].
  cbn [all_from] in Hall. apply andb_true_iff in Hall as [Hz Hrest].
  destruct (Z.eq_dec x z) as [-> | Hne]; [exact Hz|].
  apply (IH (z + 1) Hrest). lia.
Qed.

Lemma string_of_uint_digits (d : Decimal.uint) :
  PyStr.all PyStr.char_isdigit (NilEmpty.string_of_uint d) = true
  /\ String.length (NilEmpty.string_of_uint d) = Decimal.nb_digits d.
Proof.
  induction d as [|d [IHd IHl]|d [IHd IHl]|d [IHd IHl]|d [IHd IHl]|d [IHd IHl]
                 |d [IHd IHl]|d [IHd IHl]|d [IHd IHl]|d [IHd IHl]|d [IHd IHl]];
    cbn [NilEmpty.string_of_uint PyStr.all String.length Decimal.nb_digits];
    [now split | split; [exact IHd | now rewrite IHl] ..].
Qed.

Lemma has_digits_str (len : nat) (z : Z) :
  has_digits (S len) z = true -> digits_of_length (S len) (int_str z) = true.
Proof.
  destruct z as [|p|p]; try discriminate. unfold has_digits, int_str, digits_of_length.
  cbn [Z.to_int NilZero.string_of_int]. generalize (Pos.to_uint p).
  intros d Hlen. apply Nat.eqb_eq in Hlen.
  destruct (string_of_uint_digits d) as [Hdigits Hlength].
  assert (Hstr : NilZero.string_of_uint d = NilEmpty.string_of_uint d)
    by (destruct d; [discriminate Hlen | reflexivity ..]).
  now rewrite Hstr, Hdigits, Hlength, Hlen, Nat.eqb_refl.
Qed.

Lemma five_digit_numbers :
  all_from (has_digits 5) 10000 (Z.to_nat 90000) = true.
Proof. vm_compute. reflexivity. Qed.

Lemma four_digit_pins :
  all_from (has_digits 4) 1000 (Z.to_nat 9000) = true.
Proof. vm_compute. reflexivity. Qed.

Lemma five_digits (z : Z) :
  10000 <= z <= 99999 -> digits_of_length 5 (int_str z) = true.
Proof.
  intros Hz. apply has_digits_str.
  apply (all_from_spec _ _ _ five_digit_numbers z). lia.
Qed.

Lemma four_digits (z : Z) :
  1000 <= z <= 9999 -> digits_of_length 4 (int_str z) = true.
Proof.
  intros Hz. apply has_digits_str.
  apply (all_from_spec _ _ _ four_digit_pins z). lia.
Qed.

(** X9.  Whatever [random.randint(10000, 99999)] and
    [random.randint(1000, 9999)] draw, the account number that [new_account]
    returns is a string of exactly five digits and the pin a string of
    exactly four. *)
Theorem new_account_credentials {N : Type} {number_ops : Number N} (py_str : N -> string) (users : dict N)
    (kind : string) (rand_num rand_pin : Z) :
  10000 <= rand_num <= 99999 ->
  1000 <= rand_pin <= 9999 ->
  let '(_, _, (acc_num, pin0)) := new_account py_str users kind rand_num rand_pin in
  digits_of_length 5 acc_num = true /\ digits_of_length 4 pin0 = true.
Proof.
  intros Hnum Hpin. cbn [new_account]. split.
  - now apply five_digits.
  - now apply four_digits.
Qed.


Lemma new_account_credentials_witness :
  10000 <= 10000 <= 99999
  /\ 1000 <= 9999 <= 9999
  /\ digits_of_length 5 "10000" = true
  /\ digits_of_length 4 "9999" = true.
Proof.
  assert (Hnum : 10000 <= 10000 <= 99999) by lia.
  assert (Hpin : 1000 <= 9999 <= 9999) by lia.
  split; [exact Hnum|]. split; [exact Hpin|].
  exact (new_account_credentials PyFloat.repr [] "personal" 10000 9999 Hnum Hpin).
Defined.


(** X10.  The credentials that [new_account] returns log into the account it
    has just stored: [authenticate] gives back an account of the requested
    kind ([Personal] for the token [personal], [Business] for any other)
    with a balance of zero.  The accounts under other numbers are as they
    were, and the file written is the save of the new table. *)
Theorem new_account_login {N : Type} {number_ops : Number N} (py_str : N -> string) (users : dict N) (kind : string)
    (rand_num rand_pin : Z) :
  let '(users', f, (acc_num, pin0)) := new_account py_str users kind rand_num rand_pin in
  authenticate users' acc_num pin0
  = inr (if String.eqb kind "personal" then Personal acc_num pin0 py_zero
         else Business acc_num pin0 py_zero)
  /\ (forall k, k <> acc_num -> dict_get users' k = dict_get users k)
  /\ f = _save_data py_str users'.
Proof.
  cbn [new_account]. split; [|split].
  - unfold authenticate. rewrite dict_get_set_same.
    destruct (String.eqb kind "personal"); cbn [pin Personal Business];
      now rewrite String.eqb_refl.
  - intros k Hk. now apply dict_get_set_other.
  - reflexivity.
Qed.

(** X11.  [new_account] does not look whether the number it drew is taken.
    When it is, the account stored under that number is replaced by the new,
    empty one: the table does not grow, the balance under the number is zero,
    and the pin of the replaced account no longer authenticates unless it is
    the pin just drawn. *)
Theorem new_account_collision {N : Type} {number_ops : Number N} (py_str : N -> string) (users : dict N) (kind : string)
    (rand_num rand_pin : Z) (old : Account N) :
  dict_get users (int_str rand_num) = Some old ->
  let '(users', _, (acc_num, pin0)) := new_account py_str users kind rand_num rand_pin in
  List.length users' = List.length users
  /\ option_map balance (dict_get users' acc_num) = Some py_zero
  /\ (pin old <> pin0 ->
      authenticate users' acc_num (pin old) = inl AuthenticationFailed).
Proof.
  intros Hold. cbn [new_account]. split; [|split].
  - rewrite dict_set_length. unfold dict_mem. now rewrite Hold.
  - rewrite dict_get_set_same. now destruct (String.eqb kind "personal").
  - intros Hpin. unfold authenticate. rewrite dict_get_set_same.
    assert (Hne : String.eqb (int_str rand_pin) (pin old) = false)
      by (apply String.eqb_neq; congruence).
    destruct (String.eqb kind "personal"); cbn [pin Personal Business];
      now rewrite Hne.
Qed.


Lemma new_account_collision_witness :
  dict_get float_users (int_str 11111) = Some (float_heap acc1)
  /\ option_map balance
       (dict_get (fst (fst (new_account PyFloat.repr float_users "business"
                              11111 4321)))
          "11111") = Some 0%float
  /\ authenticate (fst (fst (new_account PyFloat.repr float_users "business"
                               11111 4321)))
       "11111" "1111" = inl AuthenticationFailed.
Proof.
  assert (Hold : dict_get float_users (int_str 11111) = Some (float_heap acc1))
    by reflexivity.
  pose proof (new_account_collision PyFloat.repr float_users "business" 11111 4321
                (float_heap acc1) Hold) as (_ & Hzero & Hlocked).
  split; [exact Hold|]. split; [exact Hzero|].
  apply Hlocked. discriminate.
Defined.

(** ** The ledger across a restart *)

Section Restart.

Context {N : Type} {number_ops : Number N}.

Variable py_float : string -> option N.
Variable py_str : N -> string.

Lemma reload_valid_table (users : dict N) :
  valid_table py_float py_str users ->
  BankCore py_float (_save_data py_str users) = inr users.
Proof.
  intros [Hkeys Hrecords]. unfold BankCore, _save_data, _load_data.
  rewrite (lines_saved py_float py_str users Hrecords).
  now apply (load_saved_lines py_float py_str [] users).
Qed.

Lemma digits_of_length_all (len : nat) (s : string) :
  digits_of_length len s = true -> PyStr.all PyStr.char_isdigit s = true.
Proof. unfold digits_of_length. now intros [_ H]%andb_true_iff. Qed.

(** X12.  An account opened in a table of valid records is there after a
    restart: the table [new_account] leaves is again made of valid records,
    and loading the file it has written gives exactly that table.  The text
    of the balance zero is asked to parse back to zero and to hold no white
    space or comma. *)
Theorem new_account_survives_restart (users : dict N) (kind : string)
    (rand_num rand_pin : Z) :
  valid_table py_float py_str users ->
  10000 <= rand_num <= 99999 ->
  1000 <= rand_pin <= 9999 ->
  py_float (py_str py_zero) = Some py_zero ->
  PyStr.all field_char (py_str py_zero) = true ->
  let '(users', f, (acc_num, pin0)) := new_account py_str users kind rand_num rand_pin in
  valid_table py_float py_str users'
  /\ BankCore py_float f = inr users'
  /\ exists acc, authenticate users' acc_num pin0 = inr acc /\ balance acc = py_zero.
Proof.
  intros [Hkeys Hrecords] Hnum Hpin Hparse Hclean. cbn [new_account].
  pose proof (digits_of_length_all _ _ (five_digits rand_num Hnum)) as Hnum5.
  pose proof (digits_of_length_all _ _ (four_digits rand_pin Hpin)) as Hpin4.
  assert (Hvalid : valid_table py_float py_str
                     (dict_set users (int_str rand_num)
                        (if String.eqb kind "personal"
                         then Personal (int_str rand_num) (int_str rand_pin) py_zero
                         else Business (int_str rand_num) (int_str rand_pin) py_zero))).
  { split; [now apply dict_set_nodup|].
    apply dict_set_forall; [|exact Hrecords].
    destruct (String.eqb kind "personal"); cbn; repeat split; auto. }
  split; [exact Hvalid|]. split; [now apply reload_valid_table|].
  unfold authenticate. rewrite dict_get_set_same.
  destruct (String.eqb kind "personal"); cbn [pin Personal Business];
    rewrite String.eqb_refl; eexists; split; reflexivity.
Qed.

(** X13.  An account removed from a table of valid records stays removed
    after a restart: loading the save of the table [remove_account] leaves
    gives exactly that table, in which the number does not authenticate. *)
Theorem removed_account_stays_removed (users users' : dict N) (acc_num : string) :
  valid_table py_float py_str users ->
  remove_account users acc_num = inr users' ->
  BankCore py_float (_save_data py_str users') = inr users'
  /\ dict_mem users' acc_num = false
  /\ forall pin0, authenticate users' acc_num pin0 = inl AuthenticationFailed.
Proof.
  intros [Hkeys Hrecords]. unfold remove_account.
  destruct (dict_mem users acc_num); [|discriminate]. intros [= <-].
  pose proof (dict_get_del_same users acc_num Hkeys) as Hgone.
  split; [|split].
  - apply reload_valid_table. split;
      [now apply dict_del_nodup | now apply dict_del_forall].
  - unfold dict_mem. now rewrite Hgone.
  - intros pin0. unfold authenticate. now rewrite Hgone.
Qed.

End Restart.

Lemma new_account_survives_restart_witness :
  valid_table PyFloat.of_string PyFloat.repr float_users
  /\ 10000 <= 54321 <= 99999
  /\ 1000 <= 4321 <= 9999
  /\ BankCore PyFloat.of_string
       (snd (fst (new_account PyFloat.repr float_users "personal" 54321 4321)))
     = inr (float_users ++ [("54321", Personal "54321" "4321" 0%float)])%list.
Proof.
  assert (Hnum : 10000 <= 54321 <= 99999) by lia.
  assert (Hpin : 1000 <= 4321 <= 9999) by lia.
  pose proof (new_account_survives_restart PyFloat.of_string PyFloat.repr
                float_users "personal" 54321 4321 float_users_valid Hnum Hpin
                eq_refl eq_refl)
    as (_ & Hload & _).
  split; [exact float_users_valid|]. split; [exact Hnum|]. split; [exact Hpin|].
  exact Hload.
Defined.

Lemma removed_account_stays_removed_witness :
  valid_table PyFloat.of_string PyFloat.repr float_users
  /\ remove_account float_users "11111" = inr [("22222", float_heap acc2)]
  /\ BankCore PyFloat.of_string
       (_save_data PyFloat.repr [("22222", float_heap acc2)])
     = inr [("22222", float_heap acc2)].
Proof.
  assert (Hrm : remove_account float_users "11111"
                = inr [("22222", float_heap acc2)])
    by reflexivity.
  destruct (removed_account_stays_removed PyFloat.of_string PyFloat.repr
              float_users _ "11111" float_users_valid Hrm) as (Hload & _).
  split; [exact float_users_valid|]. split; [exact Hrm | exact Hload].
Defined.

(** ** Lines the loader refuses *)

Lemma split_length (sep : ascii) (s : string) :
  List.length (PyStr.split sep s) = S (count_char sep s).
Proof.
  induction s as [|c s IH]; cbn; [reflexivity|].
  destruct (Ascii.eqb c sep); cbn; [now rewrite IH|].
  destruct (PyStr.split sep s) as [|f fs]; [discriminate IH | exact IH].
Qed.


Lemma count_char_lstrip (c : ascii) (s : string) :
  PyStr.char_isspace c = false ->
  count_char c (PyStr.lstrip s) = count_char c s.
Proof.
  intros Hc. induction s as [|c' s IH]; cbn; [reflexivity|].
  destruct (PyStr.char_isspace c') eqn:E; [|reflexivity].
  destruct (Ascii.eqb_spec c' c) as [-> | Hne]; [congruence | exact IH].
Qed.

Lemma count_char_rstrip (c : ascii) (s : string) :
  PyStr.char_isspace c = false ->
  count_char c (PyStr.rstrip s) = count_char c s.
Proof.
  intros Hc. induction s as [|c' s IH]; cbn; [reflexivity|].
  destruct (PyStr.rstrip s) as [|c1 r].
  - cbn in IH. rewrite <- IH.
    destruct (PyStr.char_isspace c') eqn:E; cbn.
    + destruct (Ascii.eqb_spec c' c) as [-> | Hne]; [congruence | reflexivity].
    + reflexivity.
  - cbn [count_char] in *. now rewrite IH.
Qed.

Lemma count_char_strip (c : ascii) (s : string) :
  PyStr.char_isspace c = false ->
  count_char c (PyStr.strip s) = count_char c s.
Proof.
  intros Hc. unfold PyStr.strip.
  now rewrite count_char_rstrip, count_char_lstrip.
Qed.

Lemma load_record_unpack_error {N : Type} (py_float : string -> option N) (users : dict N)
    (line : string) :
  count_char comma line <> 3%nat ->
  exists msg, load_record py_float users line = inl (ValueError msg).
Proof.
  intros Hcount. unfold load_record.
  pose proof (split_length comma (PyStr.strip line)) as Hlen.
  rewrite count_char_strip in Hlen by reflexivity.
  destruct (PyStr.split comma (PyStr.strip line))
    as [|f1 [|f2 [|f3 [|f4 [|f5 fs]]]]]; cbn in Hlen; try (eexists; reflexivity).
  exfalso. apply Hcount. now injection Hlen.
Qed.

Lemma load_record_raises_value_error {N : Type} (py_float : string -> option N)
    (users : dict N) (line : string) (e : exn) :
  load_record py_float users line = inl e -> exists msg, e = ValueError msg.
Proof.
  unfold load_record.
  destruct (PyStr.split comma (PyStr.strip line))
    as [|f1 [|f2 [|f3 [|f4 [|f5 fs]]]]]; try (intros [= <-]; eexists; reflexivity).
  destruct (py_float f4); [discriminate | intros [= <-]; eexists; reflexivity].
Qed.

(** X14.  A line of the store is read only if it holds exactly three commas
    and its last field parses as a number; every other line raises
    [ValueError], and nothing but [ValueError] is ever raised by a line. *)
Theorem load_record_accepts {N : Type} (py_float : string -> option N) (users : dict N)
    (line : string) :
  (count_char comma line <> 3%nat ->
   exists msg, load_record py_float users line = inl (ValueError msg))
  /\ (count_char comma line = 3%nat ->
      exists acc pwd typ bal,
        PyStr.split comma (PyStr.strip line) = [acc; pwd; typ; bal]
        /\ (py_float bal = None ->
            exists msg, load_record py_float users line = inl (ValueError msg))
        /\ (py_float bal <> None ->
            exists users', load_record py_float users line = inr users'))
  /\ (forall e, load_record py_float users line = inl e ->
                exists msg, e = ValueError msg).
Proof.
  split; [apply load_record_unpack_error|].
  split; [|apply load_record_raises_value_error].
  intros Hcount. unfold load_record.
  pose proof (split_length comma (PyStr.strip line)) as Hlen.
  rewrite count_char_strip, Hcount in Hlen by reflexivity.
  destruct (PyStr.split comma (PyStr.strip line))
    as [|f1 [|f2 [|f3 [|f4 [|f5 fs]]]]]; try discriminate Hlen.
  exists f1, f2, f3, f4. split; [reflexivity|].
  destruct (py_float f4) as [b|].
  - split; [discriminate | intros _; eexists; reflexivity].
  - split; [intros _; eexists; reflexivity | congruence].
Qed.


Lemma load_record_accepts_witness :
  (exists msg, load_record PyFloat.of_string [] newline = inl (ValueError msg))
  /\ (exists msg, load_record PyFloat.of_string [] "10001,1234,personal"
                  = inl (ValueError msg))
  /\ (exists msg, load_record PyFloat.of_string [] "10001,1234,personal,abc"
                  = inl (ValueError msg)).
Proof.
  destruct (load_record_accepts PyFloat.of_string [] newline) as (Hblank & _).
  destruct (load_record_accepts PyFloat.of_string [] "10001,1234,personal")
    as (Hshort & _).
  destruct (load_record_accepts PyFloat.of_string [] "10001,1234,personal,abc")
    as (_ & Hfour & _).
  split; [apply Hblank; discriminate|]. split; [apply Hshort; discriminate|].
  destruct (Hfour eq_refl) as (acc & pwd & typ & bal & Hsplit & Hbad & _).
  apply Hbad. injection Hsplit as _ _ _ <-. reflexivity.
Defined.

Lemma load_lines_raises_value_error {N : Type} (py_float : string -> option N)
    (ls : list string) :
  forall users e, load_lines py_float users ls = inl e -> exists msg, e = ValueError msg.
Proof.
  induction ls as [|line ls IH]; intros users e; cbn; [discriminate|].
  destruct (load_record py_float users line) as [e'|users'] eqn:E.
  - intros [= <-]. now apply (load_record_raises_value_error py_float users line).
  - apply IH.
Qed.


Lemma malformed_line_aborts {N : Type} (py_float : string -> option N)
    (ls : list string) (bad : string) :
  In bad ls -> count_char comma bad <> 3%nat ->
  forall users, exists msg, load_lines py_float users ls = inl (ValueError msg).
Proof.
  intros Hin Hbad. induction ls as [|line ls IH]; intros users; [destruct Hin|].
  cbn [load_lines].
  destruct (load_record py_float users line) as [e|users'] eqn:E.
  - destruct (load_record_raises_value_error py_float users line e E) as [msg ->].
    now exists msg.
  - destruct Hin as [-> | Hin]; [|now apply IH].
    destruct (load_record_unpack_error py_float users bad Hbad) as [msg Hmsg].
    congruence.
Qed.

(** X15.  One malformed line is enough to make the whole store unreadable:
    if any line of the file, a blank one for instance, does not hold exactly
    three commas, [_load_data] raises [ValueError], whatever the other lines
    are. *)
Theorem load_rejects_malformed_line {N : Type} (py_float : string -> option N)
    (text : string) (users : dict N) :
  (exists line, In line (PyStr.lines text) /\ count_char comma line <> 3%nat) ->
  exists msg, _load_data py_float (Some text) users = inl (ValueError msg).
Proof.
  intros (bad & Hin & Hbad). cbn [_load_data].
  now apply (malformed_line_aborts py_float (PyStr.lines text) bad).
Qed.

Lemma load_rejects_malformed_line_witness :
  exists msg,
    _load_data PyFloat.of_string
      (Some ("11111,1111,personal,1000.0" ++ newline ++ newline
             ++ "22222,2222,business,500.0" ++ newline)%string) []
    = inl (ValueError msg).
Proof.
  apply load_rejects_malformed_line.
  exists newline. split; [right; left; reflexivity | discriminate].
Defined.

Section Commas.

Context {N : Type}.

Variable py_float : string -> option N.
Variable py_str : N -> string.




End Commas.


Lemma load_lines_app {N : Type} (py_float : string -> option N) (ls1 ls2 : list string) :
  forall users loaded,
    load_lines py_float users ls1 = inr loaded ->
    load_lines py_float users (ls1 ++ ls2) = load_lines py_float loaded ls2.
Proof.
  induction ls1 as [|line ls1 IH]; intros users loaded; cbn.
  - now intros [= ->].
  - destruct (load_record py_float users line) as [e|users']; [discriminate|].
    apply IH.
Qed.

(** X17.  When the file holds several records for one number, the last one
    decides: after loading, the account under the number of the last line is
    the one that line describes, whatever earlier lines said, and the
    accounts under other numbers are as the earlier lines left them. *)
Theorem later_record_wins {N : Type} (py_float : string -> option N) (users loaded : dict N)
    (ls : list string) (line acc pwd typ bal : string) (b : N) :
  load_lines py_float users ls = inr loaded ->
  PyStr.split comma (PyStr.strip line) = [acc; pwd; typ; bal] ->
  py_float bal = Some b ->
  exists loaded',
    load_lines py_float users (ls ++ [line]) = inr loaded'
    /\ dict_get loaded' acc
       = Some (if String.eqb typ "personal" then Personal acc pwd b
               else Business acc pwd b)
    /\ (forall k, k <> acc -> dict_get loaded' k = dict_get loaded k)
    /\ List.length loaded'
       = if dict_mem loaded acc then List.length loaded else S (List.length loaded).
Proof.
  intros Hloaded Hsplit Hbal.
  rewrite (load_lines_app py_float ls [line] users loaded Hloaded).
  cbn [load_lines]. unfold load_record. rewrite Hsplit, Hbal.
  eexists. split; [reflexivity|].
  split; [|split].
  - rewrite dict_get_set_same. now destruct (String.eqb typ "personal").
  - intros k Hk. now apply dict_get_set_other.
  - apply dict_set_length.
Qed.


Lemma later_record_wins_witness :
  exists loaded',
    load_lines PyFloat.of_string []
      ["11111,1111,personal,1000.0"; "22222,2222,business,500.0";
       "11111,9999,business,5.5"]
    = inr loaded'
    /\ dict_get loaded' "11111" = Some (Business "11111" "9999" 5.5%float)
    /\ List.length loaded' = 2%nat.
Proof.
  destruct (later_record_wins PyFloat.of_string []
              [("11111", Personal "11111" "1111" 1000%float);
               ("22222", Business "22222" "2222" 500%float)]
              ["11111,1111,personal,1000.0"; "22222,2222,business,500.0"]
              "11111,9999,business,5.5" "11111" "9999" "business" "5.5" 5.5%float
              eq_refl eq_refl eq_refl)
    as (loaded' & Hload & Hget & _ & Hlen).
  exists loaded'. split; [exact Hload|]. split; [exact Hget | exact Hlen].
Defined.

(** ** The dashboard *)

Section Dashboard.

Context {N : Type} {number_ops : Number N}.

Variable py_float : string -> option N.
Variable py_str : N -> string.

Lemma with_objects_same (w : World N) : with_objects w (objects w) = w.
Proof. now destruct w. Qed.

(** What [attempt] does with a method that either fails with an
    [InputError] on an untouched store or succeeds. *)
Lemma attempt_cases (failed : string) (method : M N unit) (w : World N) :
  (forall e, outcome method (objects w) = inl e ->
             store_after method (objects w) = objects w
             /\ exists msg, e = InputError msg) ->
  (fails method (objects w) /\ fst (attempt py_str failed method w) = w)
  \/ (succeeds method (objects w)
      /\ fst (attempt py_str failed method w)
         = save py_str (with_objects w (store_after method (objects w)))).
Proof.
  unfold attempt, fails, succeeds, outcome, store_after.
  destruct (method (objects w)) as [h [e|[]]]; cbn [fst snd]; intros Hfail.
  - left. destruct (Hfail e eq_refl) as (-> & msg & ->). cbn [fst].
    split; [eauto | apply with_objects_same].
  - right. split; [eauto | reflexivity].
Qed.

Lemma deposit_attempt (user : ref) (a : N) (h : Heap N) (e : exn) :
  outcome (deposit user a) h = inl e ->
  store_after (deposit user a) h = h /\ exists msg, e = InputError msg.
Proof.
  unfold outcome, store_after. rewrite deposit_run.
  destruct (py_le a py_zero); cbn [fst snd]; [|discriminate].
  intros [= <-]. split; [reflexivity | eexists; reflexivity].
Qed.

Lemma withdraw_attempt (user : ref) (a : N) (h : Heap N) (e : exn) :
  outcome (withdraw user a) h = inl e ->
  store_after (withdraw user a) h = h /\ exists msg, e = InputError msg.
Proof.
  unfold outcome, store_after. rewrite withdraw_run.
  destruct (py_gt a (balance (h user))); cbn [fst snd]; [|discriminate].
  intros [= <-]. split; [reflexivity | eexists; reflexivity].
Qed.

Lemma recharge_attempt (user : ref) (n : string) (a : N) (h : Heap N) (e : exn) :
  outcome (recharge user n a) h = inl e ->
  store_after (recharge user n a) h = h /\ exists msg, e = InputError msg.
Proof.
  unfold outcome, store_after. rewrite recharge_run.
  destruct (negb (PyStr.isdigit n) || negb (PyStr.len n =? 10)); cbn [fst snd].
  - intros [= <-]. split; [reflexivity | eexists; reflexivity].
  - destruct (py_gt a (balance (h user))); cbn [fst snd]; [|discriminate].
    intros [= <-]. split; [reflexivity | eexists; reflexivity].
Qed.

(** The three working handlers either do nothing or run their method with
    success and save. *)
Lemma _deposit_cases (user : ref) (value : option string) (w : World N) :
  fst (_deposit py_float py_str user value w) = w
  \/ exists a,
       succeeds (deposit user a) (objects w)
       /\ fst (_deposit py_float py_str user value w)
          = save py_str (with_objects w (store_after (deposit user a) (objects w))).
Proof.
  unfold _deposit.
  destruct (_prompt_amount py_float value) as [[a|] shown]; [|now left].
  destruct (truthy (Some a)); [|now left].
  destruct (attempt_cases "Deposit Failed" (deposit user a) w
              (deposit_attempt user a (objects w))) as [[_ Hw] | [Hok Hw]];
    destruct (attempt py_str "Deposit Failed" (deposit user a) w) as [w' shown'];
    cbn [fst] in *; [now left | right; eauto].
Qed.

Lemma _withdraw_cases (user : ref) (value : option string) (w : World N) :
  fst (_withdraw py_float py_str user value w) = w
  \/ exists a,
       succeeds (withdraw user a) (objects w)
       /\ fst (_withdraw py_float py_str user value w)
          = save py_str (with_objects w (store_after (withdraw user a) (objects w))).
Proof.
  unfold _withdraw.
  destruct (_prompt_amount py_float value) as [[a|] shown]; [|now left].
  destruct (truthy (Some a)); [|now left].
  destruct (attempt_cases "Withdrawal Failed" (withdraw user a) w
              (withdraw_attempt user a (objects w))) as [[_ Hw] | [Hok Hw]];
    destruct (attempt py_str "Withdrawal Failed" (withdraw user a) w) as [w' shown'];
    cbn [fst] in *; [now left | right; eauto].
Qed.

Lemma _recharge_cases (user : ref) (number value : option string) (confirm : bool)
    (w : World N) :
  fst (_recharge py_float py_str user number value confirm w) = w
  \/ exists n a,
       number = Some n /\ succeeds (recharge user n a) (objects w)
       /\ fst (_recharge py_float py_str user number value confirm w)
          = save py_str (with_objects w (store_after (recharge user n a) (objects w))).
Proof.
  unfold _recharge. destruct number as [[|c n]|]; try now left.
  destruct (_prompt_amount py_float value) as [[a|] shown]; [|now left].
  destruct (truthy (Some a)); cbn [andb]; [|now left].
  destruct confirm; [|now left].
  destruct (attempt_cases "Recharge Failed" (recharge user (String c n) a) w
              (recharge_attempt user (String c n) a (objects w)))
    as [[_ Hw] | [Hok Hw]];
    destruct (attempt py_str "Recharge Failed" (recharge user (String c n) a) w)
      as [w' shown'];
    cbn [fst] in *; [now left | right; eauto 6].
Qed.

(** X19.  The handlers keep the file in step with the table: when the file
    is the save of the table before [_deposit], [_withdraw], [_recharge] or
    [_transfer] runs, it is the save of the table afterwards, whether the
    handler changed a balance, showed an error or did nothing; and no handler
    changes which accounts the table holds. *)
Theorem dashboard_keeps_file_in_step (user : ref)
    (number receiver value : option string) (confirm : bool) (w : World N) :
  data_txt w = _save_data py_str (table w) ->
  forall w',
    w' = fst (_deposit py_float py_str user value w)
    \/ w' = fst (_withdraw py_float py_str user value w)
    \/ w' = fst (_recharge py_float py_str user number value confirm w)
    \/ w' = fst (_transfer py_float user receiver value confirm w) ->
    data_txt w' = _save_data py_str (table w')
    /\ bank_users w' = bank_users w.
Proof.
  intros Hstep w' [-> | [-> | [-> | ->]]].
  - destruct (_deposit_cases user value w) as [-> | (a & _ & ->)]; now split.
  - destruct (_withdraw_cases user value w) as [-> | (a & _ & ->)]; now split.
  - destruct (_recharge_cases user number value confirm w)
      as [-> | (n & a & _ & _ & ->)]; now split.
  - unfold _transfer. destruct receiver as [[|c rcv]|]; try now split.
    destruct (String.eqb (String c rcv) (num (objects w user))); [now split|].
    destruct (_prompt_amount py_float value) as [[a|] shown]; [|now split].
    destruct (truthy (Some a)); [|now split].
    destruct (users_get (bank_users w) (String c rcv)); [|now split].
    destruct confirm; now split.
Qed.

(** X20.  The transfer handler moves no money.  Whatever is typed and
    answered, [_transfer] leaves every account, the table and the file as
    they were; and when everything is in order (the receiver is another
    account of the bank, the amount is a number that passes the check of the
    prompt, the user confirms), what happens is the [AttributeError] of the
    missing [send_money], which the handler does not catch. *)
Theorem dashboard_transfer_moves_nothing (user : ref)
    (receiver value : option string) (confirm : bool) (w : World N) :
  fst (_transfer py_float user receiver value confirm w) = w
  /\ (forall rcv v a target,
         receiver = Some rcv -> rcv <> EmptyString ->
         rcv <> num (objects w user) ->
         users_get (bank_users w) rcv = Some target ->
         value = Some v -> v <> EmptyString -> py_float v = Some a ->
         py_le a py_zero = false -> py_bool a = true ->
         confirm = true ->
         snd (_transfer py_float user receiver value confirm w)
         = [uncaught_AttributeError "send_money"]).
Proof.
  split.
  - unfold _transfer. destruct receiver as [[|c rcv]|]; try reflexivity.
    destruct (String.eqb (String c rcv) (num (objects w user))); [reflexivity|].
    destruct (_prompt_amount py_float value) as [[a|] shown]; [|reflexivity].
    destruct (truthy (Some a)); [|reflexivity].
    destruct (users_get (bank_users w) (String c rcv)); [|reflexivity].
    now destruct confirm.
  - intros rcv v a target -> Hrcv Hother Htarget -> Hv Hparse Ha Hbool ->.
    unfold _transfer, _prompt_amount.
    destruct rcv as [|c rcv]; [congruence|].
    apply String.eqb_neq in Hother as ->.
    destruct v as [|c' v]; [congruence|]. rewrite Hparse, Ha. cbn [truthy].
    rewrite Hbool, Htarget. reflexivity.
Qed.

End Dashboard.

Lemma dashboard_keeps_file_in_step_witness :
  data_txt (save PyFloat.repr test_world)
  = _save_data PyFloat.repr (table (save PyFloat.repr test_world))
  /\ data_txt (fst (_withdraw PyFloat.of_string PyFloat.repr acc2 (Some "300")
                      (save PyFloat.repr test_world)))
     = Some ("11111,1111,personal,1000.0" ++ newline
             ++ "22222,2222,business,200.0" ++ newline)%string.
Proof.
  assert (Hstep : data_txt (save PyFloat.repr test_world)
                  = _save_data PyFloat.repr (table (save PyFloat.repr test_world)))
    by reflexivity.
  split; [exact Hstep|].
  destruct (dashboard_keeps_file_in_step PyFloat.of_string PyFloat.repr acc2
              None None (Some "300") false (save PyFloat.repr test_world) Hstep
              (fst (_withdraw PyFloat.of_string PyFloat.repr acc2 (Some "300")
                      (save PyFloat.repr test_world))))
    as [Hfile _]; [right; left; reflexivity|].
  rewrite Hfile. vm_compute. reflexivity.
Defined.

Lemma dashboard_transfer_moves_nothing_witness :
  fst (_transfer PyFloat.of_string acc1 (Some "22222") (Some "200") true
         test_world) = test_world
  /\ snd (_transfer PyFloat.of_string acc1 (Some "22222") (Some "200") true
            test_world) = [uncaught_AttributeError "send_money"].
Proof.
  destruct (dashboard_transfer_moves_nothing PyFloat.of_string acc1
              (Some "22222") (Some "200") true test_world) as (Hsame & Herr).
  split; [exact Hsame|].
  apply (Herr "22222" "200" 200%float acc2);
    solve [reflexivity | discriminate].
Defined.
